(** * meetai: the authentication actions and the access guard

    A shallow embedding of [src/app/actions/auth.ts] (the server actions
    [signup], [signin], [getCurrentUser], [signout], [forgotPassword],
    [resetPassword], [handleGoogleOAuthCallback]), of the drizzle schema
    they run against and of the [middleware] access guard.

    The relational store, the cookie store and the console are one explicit
    [World] threaded through an exception monad: a JavaScript [throw]
    leaves the effects made so far in place, exactly as the un-transacted
    statements of the source do.  Everything a run draws from outside
    (clock, uuid, salt, mail outcome, identity-provider reply, outcome of
    lucia's session call, process environment) is an explicit [Env].
    Requests are served one at a time by [step]; [Pool] resumes
    overlapping requests [await] by [await]. *)

From Stdlib Require Import ZArith List Bool Lia Ascii String DecimalString DecimalPos.
From stdpp Require Import base option gmap strings.
Import ListNotations.

Open Scope string_scope.
Open Scope Z_scope.

(** ** The schema ([pgTable] declarations)

    Rows in insertion order.  Timestamps are milliseconds since the epoch.
    The length limits of the [varchar] columns are enforced where a row
    is inserted with values that come from outside ([insert_user]); the
    reset token (a uuid), the session id (drawn by lucia) and the password
    digest (bcrypt's) have a fixed length below their limit of 255. *)

Module usersTable.
Record row := mk {
  id : Z;                            (* integer, identity, primary key *)
  name : string;                     (* varchar(255), not null *)
  email : string;                    (* varchar(255), not null, unique *)
  hashed_password : option string;   (* varchar(255), nullable *)
  email_verified : bool;             (* default false *)
  provider : string;                 (* varchar(50), default 'email' *)
  provider_id : option string;       (* varchar(255), nullable, unique *)
}.
End usersTable.

Module sessionsTable.
Record row := mk {
  id : string;                       (* primary key *)
  userId : Z;
  expiresAt : Z;
}.
End sessionsTable.

Module passwordResetTokensTable.
Record row := mk {
  token : string;                    (* not null; no unique constraint *)
  userId : Z;
  expiresAt : Z;                     (* milliseconds since the epoch *)
}.
End passwordResetTokensTable.

Abbreviation User := usersTable.row.
Abbreviation Session := sessionsTable.row.
Abbreviation ResetToken := passwordResetTokensTable.row.

(** ** Cookies *)

Record Cookie := {
  value : string;
  httpOnly : bool;
  secure : bool;
  maxAge : option Z;
  expires : option Z;
  path : option string;
  sameSite : option string;
}.

(** ** Results handed back to the caller *)

(** [{ field: [messages] }], in insertion order. *)
Definition FieldErrors := list (string * list string).

Inductive ActionResult :=
| SuccessUser (userId : Z)             (* { success: true, userId } *)
| SuccessMessage (message : string)    (* { success: true, message } *)
| SuccessPlain                         (* { success: true } *)
| Failure (error : FieldErrors).       (* { success: false, error: {..} } *)

(** The callback has its own result shape, with a string [error]. *)
Inductive CallbackResult :=
| CallbackOk (userId : Z)
| CallbackFailed (error : string).

(** ** Observable events: console lines and calls that leave the process *)

Inductive Event :=
| ConsoleLog (msg : string)
| ConsoleWarn (msg : string)
| ConsoleError (msg : string)
| MailSend (sender recipient link : string)
| ProviderValidateCallback (code : string).

Definition is_provider_call (e : Event) : bool :=
  match e with ProviderValidateCallback _ => true | _ => false end.

Definition is_mail_call (e : Event) : bool :=
  match e with MailSend _ _ _ => true | _ => false end.

(** ** The world *)

Record World := {
  users : list User;
  resetTokens : list ResetToken;
  sessions : list Session;
  cookieStore : gmap string Cookie;
  nextUserId : Z;                      (* the identity sequence of users.id *)
  trace : list Event;                  (* oldest first *)
}.

Definition with_users (us : list User) (w : World) : World :=
  {| users := us; resetTokens := resetTokens w; sessions := sessions w;
     cookieStore := cookieStore w; nextUserId := nextUserId w; trace := trace w |}.

Definition with_resetTokens (ts : list ResetToken) (w : World) : World :=
  {| users := users w; resetTokens := ts; sessions := sessions w;
     cookieStore := cookieStore w; nextUserId := nextUserId w; trace := trace w |}.

Definition with_sessions (ss : list Session) (w : World) : World :=
  {| users := users w; resetTokens := resetTokens w; sessions := ss;
     cookieStore := cookieStore w; nextUserId := nextUserId w; trace := trace w |}.

Definition with_cookieStore (cs : gmap string Cookie) (w : World) : World :=
  {| users := users w; resetTokens := resetTokens w; sessions := sessions w;
     cookieStore := cs; nextUserId := nextUserId w; trace := trace w |}.

Definition with_nextUserId (n : Z) (w : World) : World :=
  {| users := users w; resetTokens := resetTokens w; sessions := sessions w;
     cookieStore := cookieStore w; nextUserId := n; trace := trace w |}.

Definition with_trace (t : list Event) (w : World) : World :=
  {| users := users w; resetTokens := resetTokens w; sessions := sessions w;
     cookieStore := cookieStore w; nextUserId := nextUserId w; trace := t |}.

(** ** The exception monad of the server actions *)

Inductive Exn :=
| NEXT_REDIRECT (url : string)         (* thrown by next/navigation redirect *)
| StoreError (msg : string)            (* a rejected statement *)
| ProviderError                        (* validateCallback rejected *)
| MailError                            (* resend.emails.send rejected *)
| TypeError (msg : string)             (* a call of something that is no function *)
| SessionError.                        (* auth.createSession rejected *)

Inductive Outcome (A : Type) :=
| Returned (a : A)
| Thrown (e : Exn).
Arguments Returned {A} a.
Arguments Thrown {A} e.

Definition Action (A : Type) : Type := World -> Outcome A * World.

#[global] Instance action_ret : MRet Action :=
  fun A a w => (Returned a, w).

#[global] Instance action_bind : MBind Action :=
  fun A B k m w =>
    match m w with
    | (Returned a, w') => k a w'
    | (Thrown e, w') => (Thrown e, w')
    end.

Definition throw {A} (e : Exn) : Action A := fun w => (Thrown e, w).

(** [try { body } catch (error) { handler }] *)
Definition try_catch {A} (body : Action A) (handler : Exn -> Action A) : Action A :=
  fun w =>
    match body w with
    | (Returned a, w') => (Returned a, w')
    | (Thrown e, w') => handler e w'
    end.

Definition get_world : Action World := fun w => (Returned w, w).
Definition modify (f : World -> World) : Action unit := fun w => (Returned tt, f w).
Definition emit (e : Event) : Action unit :=
  modify (fun w => with_trace (trace w ++ [e]) w).

(** What an action leaves behind: its value if it returned, and the world. *)
Definition returned {A} (r : Outcome A * World) : option A :=
  match fst r with Returned a => Some a | Thrown _ => None end.
Definition world_after {A} (r : Outcome A * World) : World := snd r.

(** ** The cookie store of [next/headers] *)

Definition cookies_get (n : string) : Action (option string) :=
  fun w => (Returned (value <$> cookieStore w !! n), w).

Definition cookies_set (n : string) (c : Cookie) : Action unit :=
  modify (fun w => with_cookieStore (<[n := c]> (cookieStore w)) w).

Definition cookies_delete (n : string) : Action unit :=
  modify (fun w => with_cookieStore (delete n (cookieStore w)) w).

(** JavaScript truthiness of a [string | undefined | null]. *)
Definition truthy (s : option string) : bool :=
  match s with
  | Some s => negb (String.eqb s "")
  | None => false
  end.

(** ** The access guard ([middleware.ts]) *)

Definition protectedRoutes : list string := ["/dashboard"].

(** [config.matcher], exported for the framework; [middleware] does not
    read it. *)
Definition config_matcher : list string := ["/dashboard"].

Fixpoint startsWith (s p : string) {struct p} : bool :=
  match p, s with
  | EmptyString, _ => true
  | String a p', String b s' => Ascii.eqb a b && startsWith s' p'
  | String _ _, EmptyString => false
  end.

(** A [URL] built by [new URL(path, origin)] with its [searchParams]. *)
Record URL := {
  url_origin : string;
  url_pathname : string;
  searchParams : list (string * string);
}.

(** [url.searchParams.append(key, v)] *)
Definition searchParams_append (key v : string) (url : URL) : URL :=
  {| url_origin := url_origin url; url_pathname := url_pathname url;
     searchParams := searchParams url ++ [(key, v)] |}.

Inductive NextResponse :=
| next                                  (* NextResponse.next() *)
| redirect_to (url : URL).              (* NextResponse.redirect(url) *)

Record NextRequest := {
  req_origin : string;                  (* request.nextUrl.origin *)
  req_pathname : string;                (* request.nextUrl.pathname *)
  req_cookies : gmap string string;     (* request.cookies: name to value *)
}.

Definition isProtectedRoute (pathname : string) : bool :=
  existsb (fun route => startsWith pathname route) protectedRoutes.

Definition middleware (request : NextRequest) : NextResponse :=
  let pathname := req_pathname request in
  let session := req_cookies request !! "session" in
  let isAuthenticated := truthy session in
  if isProtectedRoute pathname && negb isAuthenticated then
    let signInUrl := {| url_origin := req_origin request; url_pathname := "/signin";
                        searchParams := [] |} in
    let signInUrl := searchParams_append "callbackUrl" pathname signInUrl in
    redirect_to signInUrl
  else next.

(** ** Numbers and strings of the host language *)

(** [n.toString()] of an integer-valued number. *)
Definition toString (n : Z) : string :=
  DecimalString.NilZero.string_of_int (Z.to_int n).

(** [𝔽(z)]: the double nearest to the integer [z], ties to even.  Integers
    below [2^53] in magnitude are exact.  (Overflow to [Infinity] is not
    represented: the model keeps a finite integer of the same sign, which
    every use below treats the same way.) *)
Definition toNumber (z : Z) : Z :=
  let a := Z.abs z in
  if a <? 2 ^ 53 then z
  else
    let e := Z.log2 a - 52 in
    let q := Z.shiftr a e in
    let r := a - Z.shiftl q e in
    let half := Z.shiftl 1 (e - 1) in
    let q' := if (half <? r) || ((half =? r) && Z.odd q) then q + 1 else q in
    Z.sgn z * Z.shiftl q' e.

(** [StrWhiteSpaceChar], for the code units a [string] here can hold. *)
Definition isWhiteSpace (c : ascii) : bool :=
  let n := N_of_ascii c in
  ((9 <=? n) && (n <=? 13) || (n =? 32) || (n =? 160))%N.

Definition digit_of (c : ascii) : option Z :=
  let n := Z.of_N (N_of_ascii c) in
  if (48 <=? n) && (n <=? 57) then Some (n - 48) else None.

Fixpoint trimStart (s : string) : string :=
  match s with
  | String c s' => if isWhiteSpace c then trimStart s' else s
  | EmptyString => s
  end.

(** The longest prefix of decimal digits, read most significant first. *)
Fixpoint digits_prefix (s : string) (acc : Z) : Z :=
  match s with
  | String c s' =>
      match digit_of c with
      | Some d => digits_prefix s' (10 * acc + d)
      | None => acc
      end
  | EmptyString => acc
  end.

Definition starts_with_digit (s : string) : bool :=
  match s with
  | String c _ => bool_decide (is_Some (digit_of c))
  | EmptyString => false
  end.

(** [parseInt(s, 10)]; [None] is [NaN]. *)
Definition parseInt (s : string) : option Z :=
  let s := trimStart s in
  let '(sign, s) :=
    match s with
    | String "-" s' => (-1, s')
    | String "+" s' => (1, s')
    | _ => (1, s)
    end in
  if starts_with_digit s then Some (toNumber (sign * digits_prefix s 0)) else None.

(** A value interpolated in a template literal. *)
Definition interpolate (v : option string) : string := default "undefined" v.

(** ** Injected libraries *)

(** zod's string formats. *)
Class Zod := {
  zod_email : string -> bool;
  zod_uuid : string -> bool;
}.

(** bcrypt: [bcrypt_hash salt plaintext] is [bcrypt.hash(plaintext, 10)] on a
    run that drew [salt]. *)
Class Bcrypt := {
  bcrypt_hash : string -> string -> string;
  bcrypt_compare : string -> string -> bool;
}.

Record SessionCookie := {
  sc_name : string;
  sc_value : string;
  sc_attributes : Cookie;               (* its [value] field is not read *)
}.

(** Lucia's session settings. *)
Class Lucia := {
  createSessionCookie : string -> SessionCookie;
  sessionExpiresIn : Z;
}.

(** ** What one run draws from outside *)

Inductive MailReply :=
| MailAccepted                          (* { data, error: null } *)
| MailRejected                          (* { data: null, error } *)
| MailThrows.                           (* the promise rejects *)

Record GoogleUser := {
  sub : string;
  g_email : option string;
  g_name : option string;
}.

Inductive ProviderReply :=
| ProviderUser (googleUser : GoogleUser)
| ProviderRejects.

Inductive SessionReply :=
| SessionStored                         (* the adapter's insert reaches the store *)
| SessionRejects.                       (* the promise rejects *)

Record Env := {
  now : Z;                              (* new Date(), in milliseconds *)
  uuidv4 : string;
  salt : string;
  generateState : string;
  generateCodeVerifier : string;
  generateSessionId : string;
  NODE_ENV : string;
  EMAIL_FROM : option string;           (* senderEmail *)
  NEXT_PUBLIC_APP_URL : option string;
  GOOGLE_AUTHORIZATION_URL : option string;  (* None: getAuthorizationUrl rejects *)
  resend_emails_send : MailReply;
  googleOAuth_validateCallback : string -> ProviderReply;
  auth_createSession_reply : SessionReply;
}.

(** ** Statements against the store *)

Definition int4 (n : Z) : bool := (- 2147483648 <=? n) && (n <=? 2147483647).

Definition eq_opt (a : option string) (b : string) : bool :=
  match a with Some a => String.eqb a b | None => false end.

(** [db.select().from(usersTable).where(p).limit(n)] *)
Definition select_users (p : User -> bool) (n : nat) : Action (list User) :=
  fun w => (Returned (take n (List.filter p (users w))), w).

(** The same with [eq(usersTable.id, v)] for a number [v] of the program:
    a parameter outside the column's range is rejected by the server. *)
Definition select_users_by_id (v : Z) (n : nat) : Action (list User) :=
  if int4 v then select_users (fun u => usersTable.id u =? v) n
  else throw (StoreError "value out of range for type integer").

Definition email_taken (e : string) (w : World) : bool :=
  existsb (fun u => String.eqb (usersTable.email u) e) (users w).

Definition provider_id_taken (p : option string) (w : World) : bool :=
  match p with
  | Some p => existsb (fun u => eq_opt (usersTable.provider_id u) p) (users w)
  | None => false
  end.

(** A string bound for a [varchar(n)] column: what is stored, or [None]
    when the server rejects it as too long.  A longer string passes only
    when everything past the [n]-th character is a space, and is then cut
    to [n] characters.  The limit counts characters; one [ascii] of a
    model string stands for one character. *)
Definition varchar (n : nat) (s : string) : option string :=
  if Nat.leb (String.length s) n then Some s
  else if forallb (Ascii.eqb " ")
            (list_ascii_of_string (substring n (String.length s - n) s))
       then Some (substring 0 n s)
       else None.

(** The same for a nullable column. *)
Definition varchar_null (n : nat) (v : option string) : option (option string) :=
  match v with
  | Some s => Some <$> varchar n s
  | None => Some None
  end.

(** [db.insert(usersTable).values(..)]: the values are first fitted to
    the columns [name varchar(255)], [email varchar(255)],
    [provider varchar(50)] and [provider_id varchar(255)]; then the
    identity column draws the next value of its sequence (also when the
    row is then rejected) and the two unique constraints are checked; the
    id of the stored row is returned.  ([hashed_password varchar(255)]
    only ever receives a bcrypt digest, which has 60 characters; the
    digest is left abstract here and its length is not checked.) *)
Definition insert_user (name email : string) (hashed_password : option string)
    (email_verified : bool) (provider : string) (provider_id : option string)
  : Action Z :=
  fun w =>
    match varchar 255 name, varchar 255 email, varchar 50 provider,
          varchar_null 255 provider_id with
    | Some name, Some email, Some provider, Some provider_id =>
        let newId := nextUserId w in
        if negb (int4 newId) then (Thrown (StoreError "sequence exhausted"), w)
        else
          let w := with_nextUserId (newId + 1) w in
          if email_taken email w || provider_id_taken provider_id w
          then (Thrown (StoreError "duplicate key value violates unique constraint"), w)
          else
            (Returned newId,
             with_users (users w ++ [usersTable.mk newId name email hashed_password
                                       email_verified provider provider_id]) w)
    | _, _, _, _ =>
        (Thrown (StoreError "value too long for type character varying"), w)
    end.

(** The rows [.returning({ insertedId: usersTable.id })] hands back. *)
Definition insert_user_returning (name email : string) (hashed_password : option string)
    (email_verified : bool) (provider : string) (provider_id : option string)
  : Action (list Z) :=
  insertedId ← insert_user name email hashed_password email_verified provider provider_id;
  mret [insertedId].

(** [db.update(usersTable).set({ hashed_password }).where(eq(usersTable.id, i))] *)
Definition update_hashed_password (i : Z) (h : string) : Action unit :=
  modify (fun w =>
    with_users
      (map (fun u =>
              if usersTable.id u =? i
              then usersTable.mk (usersTable.id u) (usersTable.name u) (usersTable.email u)
                     (Some h) (usersTable.email_verified u) (usersTable.provider u)
                     (usersTable.provider_id u)
              else u) (users w)) w).

Definition select_resetTokens (p : ResetToken -> bool) (n : nat) : Action (list ResetToken) :=
  fun w => (Returned (take n (List.filter p (resetTokens w))), w).

(** [db.delete(passwordResetTokensTable).where(p)] *)
Definition delete_resetTokens (p : ResetToken -> bool) : Action unit :=
  modify (fun w => with_resetTokens (List.filter (fun r => negb (p r)) (resetTokens w)) w).

Definition user_exists (i : Z) (w : World) : bool :=
  existsb (fun u => usersTable.id u =? i) (users w).

(** [db.insert(passwordResetTokensTable).values(r)]: only the foreign key
    can reject the row. *)
Definition insert_resetToken (r : ResetToken) : Action unit :=
  fun w =>
    if user_exists (passwordResetTokensTable.userId r) w
    then (Returned tt, with_resetTokens (resetTokens w ++ [r]) w)
    else (Thrown (StoreError "violates foreign key constraint"), w).

Definition insert_session (s : Session) : Action unit :=
  fun w =>
    if existsb (fun s' => String.eqb (sessionsTable.id s') (sessionsTable.id s)) (sessions w)
    then (Thrown (StoreError "duplicate key value violates unique constraint"), w)
    else if user_exists (sessionsTable.userId s) w
    then (Returned tt, with_sessions (sessions w ++ [s]) w)
    else (Thrown (StoreError "violates foreign key constraint"), w).

(** ** Input validation (the zod schemas) *)

(** [Object.fromEntries(formData.entries())], for string-valued fields. *)
Definition FormData := gmap string string.

Inductive SafeParse (A : Type) :=
| ParseOk (data : A)
| ParseError (fieldErrors : FieldErrors).
Arguments ParseOk {A} data.
Arguments ParseError {A} fieldErrors.

(** The messages one [z.string()] field collects: a missing value is a type
    error, a present one runs every check. *)
Definition field_issues (v : option string) (checks : list ((string -> bool) * string))
  : list string :=
  match v with
  | None => ["Required"]
  | Some s => map snd (List.filter (fun c => negb (fst c s)) checks)
  end.

(** [error.formErrors.fieldErrors]: the fields that have messages. *)
Definition fieldErrors_of (issues : list (string * list string)) : FieldErrors :=
  List.filter (fun kv => negb (Nat.eqb (List.length (snd kv)) 0)) issues.

Definition min_length (n : nat) (s : string) : bool := Nat.leb n (String.length s).

Section Actions.
Context `{!Zod, !Bcrypt, !Lucia}.
Variable env : Env.

Definition signupSchema (data : FormData) : SafeParse (string * string * string) :=
  let issues :=
    [("name", field_issues (data !! "name") [(min_length 1, "Name is required")]);
     ("email", field_issues (data !! "email") [(zod_email, "Invalid email address")]);
     ("password", field_issues (data !! "password")
                    [(min_length 8, "Password must be at least 8 characters long")])] in
  match fieldErrors_of issues, data !! "name", data !! "email", data !! "password" with
  | [], Some name, Some email, Some password => ParseOk (name, email, password)
  | fe, _, _, _ => ParseError fe
  end.

Definition signinSchema (data : FormData) : SafeParse (string * string) :=
  let issues :=
    [("email", field_issues (data !! "email") [(zod_email, "Invalid email address")]);
     ("password", field_issues (data !! "password") [(min_length 1, "Password is required")])] in
  match fieldErrors_of issues, data !! "email", data !! "password" with
  | [], Some email, Some password => ParseOk (email, password)
  | fe, _, _ => ParseError fe
  end.

Definition forgotPasswordSchema (data : FormData) : SafeParse string :=
  let issues :=
    [("email", field_issues (data !! "email") [(zod_email, "Invalid email address")])] in
  match fieldErrors_of issues, data !! "email" with
  | [], Some email => ParseOk email
  | fe, _ => ParseError fe
  end.

(** The [refine] runs unless a field was missing; its message goes to
    [confirmPassword]. *)
Definition resetPasswordSchema (data : FormData) : SafeParse (string * string) :=
  let refine :=
    match data !! "token", data !! "password", data !! "confirmPassword" with
    | Some _, Some password, Some confirmPassword =>
        if String.eqb password confirmPassword then [] else ["Passwords don't match"]
    | _, _, _ => []
    end in
  let issues :=
    [("token", field_issues (data !! "token") [(zod_uuid, "Invalid token format")]);
     ("password", field_issues (data !! "password")
                    [(min_length 8, "New password must be at least 8 characters long")]);
     ("confirmPassword",
      (field_issues (data !! "confirmPassword") [(min_length 8, "Confirm password is required")]
       ++ refine)%list)] in
  match fieldErrors_of issues, data !! "token", data !! "password" with
  | [], Some token, Some password => ParseOk (token, password)
  | fe, _, _ => ParseError fe
  end.

(** ** The server actions *)

Definition production : bool := String.eqb (NODE_ENV env) "production".

Definition generic_reset_message : string :=
  "If an account with that email exists, we sent a password reset link.".

Definition signup (formData : FormData) : Action ActionResult :=
  match signupSchema formData with
  | ParseError fe =>
      emit (ConsoleError "Signup validation failed:");;
      mret (Failure fe)
  | ParseOk (name, email, password) =>
      try_catch
        (existingUser ← select_users (fun u => String.eqb (usersTable.email u) email) 1;
         if Nat.ltb 0 (List.length existingUser)
         then mret (Failure [("email", ["Email already exists"])])
         else
           let hashedPassword := bcrypt_hash (salt env) password in
           newUser ← insert_user_returning name email (Some hashedPassword) false "email" None;
           match newUser with
           | [] => mret (Failure [("_form", ["Failed to create user."])])
           | insertedId :: _ =>
               emit (ConsoleLog ("User created successfully: " +:+ toString insertedId));;
               mret (SuccessUser insertedId)
           end)
        (fun error =>
           emit (ConsoleError "Error during signup:");;
           mret (Failure [("_form", ["An unexpected error occurred."])]))
  end.

(** The guard [!user || !user.hashed_password] passes exactly for a row
    with a non-empty hash. *)
Definition with_password (user : option User) : option (User * string) :=
  match user with
  | Some u =>
      if truthy (usersTable.hashed_password u)
      then pair u <$> usersTable.hashed_password u
      else None
  | None => None
  end.

(** [redirect] of next/navigation leaves by throwing. *)
Definition redirect {A} (url : string) : Action A := throw (NEXT_REDIRECT url).

Definition signin (formData : FormData) : Action ActionResult :=
  match signinSchema formData with
  | ParseError fe =>
      emit (ConsoleError "Signin validation failed:");;
      mret (Failure fe)
  | ParseOk (email, password) =>
      try_catch
        (users ← select_users (fun u => String.eqb (usersTable.email u) email) 1;
         let user := head users in
         match with_password user with
         | None =>
             emit (ConsoleError
                     ("Signin failed: User not found or password missing for email: "
                      +:+ email));;
             mret (Failure [("email", ["Invalid credentials"])])
         | Some (user, hashed_password) =>
             let passwordMatch := bcrypt_compare password hashed_password in
             if negb passwordMatch
             then
               emit (ConsoleError ("Signin failed: Password mismatch for email: " +:+ email));;
               mret (Failure [("email", ["Invalid credentials"])])
             else
               let sessionToken := toString (usersTable.id user) in
               cookies_set "session"
                 {| value := sessionToken; httpOnly := true; secure := production;
                    maxAge := Some (60 * 60 * 24 * 7); expires := None;
                    path := Some "/"; sameSite := Some "strict" |};;
               emit (ConsoleLog ("User signed in successfully: "
                                 +:+ toString (usersTable.id user)));;
               redirect "/dashboard"
         end)
        (fun error =>
           emit (ConsoleError "Error during signin action:");;
           mret (Failure [("_form", ["An unexpected error occurred during signin."])]))
  end.

Definition getCurrentUser : Action (option User) :=
  sessionToken ← cookies_get "session";
  if negb (truthy sessionToken)
  then
    emit (ConsoleLog "getCurrentUser: No session token found.");;
    mret None
  else
    let token := default "" sessionToken in   (* a non-empty string here *)
    try_catch
      (match parseInt token with
       | None =>
           emit (ConsoleWarn
                   ("getCurrentUser: Invalid session token format, not a number: " +:+ token));;
           mret None
       | Some userId =>
           users ← select_users_by_id userId 1;
           let user := head users in
           (if bool_decide (user = None)
            then emit (ConsoleWarn ("getCurrentUser: No user found for session token userId: "
                                    +:+ toString userId))
            else mret tt);;
           mret user
       end)
      (fun error =>
         emit (ConsoleError "Error in getCurrentUser function:");;
         mret None).

Definition signout : Action ActionResult :=
  cookies_delete "session";;
  mret SuccessPlain.

Definition forgotPassword (formData : FormData) : Action ActionResult :=
  match forgotPasswordSchema formData with
  | ParseError fe =>
      emit (ConsoleError "Forgot password validation failed:");;
      mret (Failure fe)
  | ParseOk email =>
      try_catch
        (users ← select_users (fun u => String.eqb (usersTable.email u) email) 1;
         match head users with
         | None =>
             emit (ConsoleWarn ("Forgot password attempt for non-existent email: " +:+ email));;
             mret (SuccessMessage generic_reset_message)
         | Some user =>
             let resetToken := uuidv4 env in
             let expiresAt := now env + 1 * 3600000 in
             delete_resetTokens
               (fun r => passwordResetTokensTable.userId r =? usersTable.id user);;
             insert_resetToken
               (passwordResetTokensTable.mk resetToken (usersTable.id user) expiresAt);;
             let resetLink :=
               interpolate (NEXT_PUBLIC_APP_URL env) +:+ "/reset-password?token="
               +:+ resetToken in
             if negb (truthy (EMAIL_FROM env))
             then
               emit (ConsoleError
                       "Email sending failed: Sender email (EMAIL_FROM) is not configured.");;
               mret (SuccessMessage generic_reset_message)
             else
               let senderEmail := default "" (EMAIL_FROM env) in
               emit (ConsoleLog ("Attempting to send password reset email to "
                                 +:+ usersTable.email user +:+ " from " +:+ senderEmail));;
               try_catch
                 (emit (MailSend senderEmail (usersTable.email user) resetLink);;
                  match resend_emails_send env with
                  | MailThrows => throw MailError
                  | MailRejected => emit (ConsoleError "Error sending password reset email:")
                  | MailAccepted => emit (ConsoleLog "Password reset email sent successfully:")
                  end)
                 (fun emailError =>
                    emit (ConsoleError "Caught exception sending password reset email:"));;
               emit (ConsoleLog ("Password reset initiated for email: " +:+ email
                       +:+ ". Reset token generated, stored, and email conceptually sent."));;
               mret (SuccessMessage generic_reset_message)
         end)
        (fun error =>
           emit (ConsoleError "Error during forgot password process:");;
           mret (Failure [("_form", ["An unexpected error occurred."])]))
  end.

(** The row filter of [resetPassword]:
    [and(eq(token, t), gt(expiresAt, now))]. *)
Definition token_valid_at (t : string) (now : Z) (r : ResetToken) : bool :=
  String.eqb (passwordResetTokensTable.token r) t
  && (now <? passwordResetTokensTable.expiresAt r).

Definition resetPassword (formData : FormData) : Action ActionResult :=
  match resetPasswordSchema formData with
  | ParseError fe =>
      emit (ConsoleError "Reset password validation failed:");;
      mret (Failure fe)
  | ParseOk (token, password) =>
      try_catch
        (let now := now env in
         tokens ← select_resetTokens (token_valid_at token now) 1;
         match head tokens with
         | None => mret (Failure [("_form", ["Invalid or expired reset token."])])
         | Some validToken =>
             users ← select_users_by_id (passwordResetTokensTable.userId validToken) 1;
             match head users with
             | None =>
                 emit (ConsoleError ("User not found for valid token: " +:+ token));;
                 mret (Failure [("_form", ["An unexpected error occurred."])])
             | Some user =>
                 let hashedPassword := bcrypt_hash (salt env) password in
                 update_hashed_password (usersTable.id user) hashedPassword;;
                 delete_resetTokens
                   (fun r => String.eqb (passwordResetTokensTable.token r) token);;
                 emit (ConsoleLog ("Password successfully reset for user ID: "
                                   +:+ toString (usersTable.id user)));;
                 mret (SuccessMessage "Your password has been successfully reset.")
             end
         end)
        (fun error =>
           emit (ConsoleError "Error during reset password process:");;
           mret (Failure [("_form", ["An unexpected error occurred."])]))
  end.

Definition transient_cookie (v : string) : Cookie :=
  {| value := v; httpOnly := true; secure := production; maxAge := Some (60 * 60);
     expires := None; path := Some "/"; sameSite := None |}.

(** Both exits are redirects, so the action never returns a value. *)
Definition signInWithGoogle : Action unit :=
  try_catch
    (let state := generateState env in
     let codeVerifier := generateCodeVerifier env in
     url ← match GOOGLE_AUTHORIZATION_URL env with
           | Some url => mret url
           | None => throw ProviderError
           end;
     cookies_set "google_oauth_state" (transient_cookie state);;
     cookies_set "google_code_verifier" (transient_cookie codeVerifier);;
     redirect url)
    (fun error =>
       emit (ConsoleError "Error initiating Google OAuth:");;
       redirect "/signin?error=google_oauth_failed").

(** [searchParams.get(key)]: the first value under [key]. *)
Definition searchParams_get (key : string) (q : list (string * string)) : option string :=
  snd <$> List.find (fun kv => String.eqb (fst kv) key) q.

(** [googleOAuth.validateCallback(code)]: one round trip to the provider. *)
Definition validateCallback (code : string) : Action GoogleUser :=
  emit (ProviderValidateCallback code);;
  match googleOAuth_validateCallback env code with
  | ProviderUser googleUser => mret googleUser
  | ProviderRejects => throw ProviderError
  end.

(** [auth.createUser({ key, attributes })].  [auth] is the object
    [new Lucia({ adapter, sessionCookie, getUserAttributes })] of
    [lib/lucia.ts]; the [Lucia] class of lucia 3, the version with that
    constructor, has no [createUser] member, so the call evaluates its
    argument and raises a [TypeError]: nothing reaches the store. *)
Definition auth_createUser (email name provider : string) (provider_id : string)
    (email_verified : bool) : Action Z :=
  throw (TypeError "auth.createUser is not a function").

(** [auth.createSession(userId, {})] of the same object: the library
    draws a session id and has the adapter of [lib/lucia.ts], built over
    [sessionsTable], insert one row for it; the promise may also reject,
    which is the run's to say ([auth_createSession_reply]). *)
Definition auth_createSession (userId : Z) : Action Session :=
  match auth_createSession_reply env with
  | SessionRejects => throw SessionError
  | SessionStored =>
      let session := sessionsTable.mk (generateSessionId env) userId
                       (now env + sessionExpiresIn) in
      insert_session session;;
      mret session
  end.

Definition state_mismatch_error : string :=
  "Authentication failed (state or code verifier mismatch).".

(** Account resolution, the find-or-create block of the callback: the
    resolved user id, or the result the callback returns at once. *)
Definition resolve_account (userEmail googleId : string) (userName : option string)
  : Action (Z + CallbackResult) :=
  existingUser ← select_users (fun u => eq_opt (usersTable.provider_id u) googleId) 1;
  match head existingUser with
  | Some existing =>
      let dbUserId := usersTable.id existing in
      emit (ConsoleLog ("Existing Google user found, signing in: " +:+ toString dbUserId));;
      mret (inl dbUserId)
  | None =>
      emit (ConsoleLog "New Google user, creating account...");;
      try_catch
        (userId ← auth_createUser userEmail
                    (if truthy userName then default "" userName else "Google User")
                    "google" googleId true;
         emit (ConsoleLog ("New Google user created: " +:+ toString userId));;
         mret (inl userId))
        (fun e =>
           emit (ConsoleLog "[error]");;
           mret (inr (CallbackFailed "database error")))
  end.

(** The tail of the callback: a session for the resolved user and its
    cookie. *)
Definition establish_session (dbUserId : Z) : Action CallbackResult :=
  session ← auth_createSession dbUserId;
  let sessionCookie := createSessionCookie (sessionsTable.id session) in
  cookies_set (sc_name sessionCookie)
    {| value := sc_value sessionCookie;
       httpOnly := httpOnly (sc_attributes sessionCookie);
       secure := secure (sc_attributes sessionCookie);
       maxAge := maxAge (sc_attributes sessionCookie);
       expires := expires (sc_attributes sessionCookie);
       path := path (sc_attributes sessionCookie);
       sameSite := sameSite (sc_attributes sessionCookie) |};;
  emit (ConsoleLog ("Google user signed in successfully: " +:+ toString dbUserId));;
  mret (CallbackOk dbUserId).

Definition handleGoogleOAuthCallback (searchParams : list (string * string))
  : Action CallbackResult :=
  let code := searchParams_get "code" searchParams in
  let state := searchParams_get "state" searchParams in
  storedState ← cookies_get "google_oauth_state";
  storedCodeVerifier ← cookies_get "google_code_verifier";
  if negb (truthy code) || negb (truthy state) || negb (truthy storedState)
     || negb (truthy storedCodeVerifier) || negb (bool_decide (state = storedState))
  then
    emit (ConsoleError
            "Google OAuth callback failed: State or code verifier mismatch or missing.");;
    mret (CallbackFailed state_mismatch_error)
  else
    let code := default "" code in            (* a non-empty string here *)
    cookies_delete "google_oauth_state";;
    cookies_delete "google_code_verifier";;
    try_catch
      (googleUser ← validateCallback code;
       let userEmail := g_email googleUser in
       let googleId := sub googleUser in
       let userName := g_name googleUser in
       if negb (truthy userEmail)
       then
         emit (ConsoleError "Google OAuth callback failed: Email not provided by Google.");;
         mret (CallbackFailed "Authentication failed (email missing from Google).")
       else
         let userEmail := default "" userEmail in
         resolved ← resolve_account userEmail googleId userName;
         match resolved with
         | inr early => mret early
         | inl dbUserId => establish_session dbUserId
         end)
      (fun error =>
         emit (ConsoleError "Error handling Google OAuth callback:");;
         mret (CallbackFailed "Authentication failed.")).
End Actions.

(** ** The subsystem as a transition system *)

Inductive Request :=
| Signup (formData : FormData)
| Signin (formData : FormData)
| GetCurrentUser
| Signout
| ForgotPassword (formData : FormData)
| ResetPassword (formData : FormData)
| SignInWithGoogle
| GoogleCallback (searchParams : list (string * string)).

Section Transitions.
Context `{!Zod, !Bcrypt, !Lucia}.

(** The world one request leaves behind. *)
Definition serve (env : Env) (r : Request) (w : World) : World :=
  match r with
  | Signup f => world_after (signup env f w)
  | Signin f => world_after (signin env f w)
  | GetCurrentUser => world_after (getCurrentUser w)
  | Signout => world_after (signout w)
  | ForgotPassword f => world_after (forgotPassword env f w)
  | ResetPassword f => world_after (resetPassword env f w)
  | SignInWithGoogle => world_after (signInWithGoogle env w)
  | GoogleCallback q => world_after (handleGoogleOAuthCallback env q w)
  end.

(** One step: the server handles a request from its arrival to its
    result with no other request in between, or the client, who owns the
    cookie jar, rewrites it.  Requests that overlap are the matter of
    [Pool] below. *)
Inductive step (w : World) : World -> Prop :=
| step_serve env r : step w (serve env r w)
| step_client cs : step w (with_cookieStore cs w).

(** Steps on which no reset token equal to [t] is drawn. *)
Inductive step_avoiding (t : string) (w : World) : World -> Prop :=
| avoid_serve env r : uuidv4 env <> t -> step_avoiding t w (serve env r w)
| avoid_client cs : step_avoiding t w (with_cookieStore cs w).

Inductive reachable (R : World -> World -> Prop) (w : World) : World -> Prop :=
| reach_here : reachable R w w
| reach_step w1 w2 : reachable R w w1 -> R w1 w2 -> reachable R w w2.
End Transitions.

(** ** Requests that overlap *)

(** An [async] function in flight: settled with its outcome, or suspended
    at an [await], holding what it does once resumed, up to its next
    [await] or its end. *)
#[warnings="-register-all"]
Inductive Async (A : Type) : Type :=
| Settled (outcome : Outcome A)
| Suspended (resume : World -> Async A * World).
Arguments Settled {A} outcome.
Arguments Suspended {A} resume.

(** The last stretch of a function: it runs to its result. *)
Definition settle {A} (m : Action A) : World -> Async A * World :=
  fun w => let '(outcome, w') := m w in (Settled outcome, w').

(** [await statement] inside [try { .. } catch (error) { handler }]: the
    statement runs against the store and the function is suspended with
    the rest [rest] of its body; if the statement rejects, the [catch]
    finishes the function. *)
Definition await {X A} (statement : Action X) (handler : Exn -> Action A)
    (rest : X -> World -> Async A * World) : World -> Async A * World :=
  fun w =>
    match statement w with
    | (Returned x, w') => (Suspended (rest x), w')
    | (Thrown e, w') => settle (handler e) w'
    end.

(** A function left alone with the store until it settles. *)
Fixpoint run_to_completion {A} (c : Async A) (w : World) : Outcome A * World :=
  match c with
  | Settled outcome => (outcome, w)
  | Suspended resume => let '(c', w') := resume w in run_to_completion c' w'
  end.

Section Overlapping.
Context `{!Zod}.
Variable env : Env.

(** What [forgotPassword] does once the token row is stored: the mail and
    the result. *)
Definition send_reset_mail (email : string) (user : User) (resetToken : string)
  : Action ActionResult :=
  let resetLink :=
    interpolate (NEXT_PUBLIC_APP_URL env) +:+ "/reset-password?token=" +:+ resetToken in
  if negb (truthy (EMAIL_FROM env))
  then
    emit (ConsoleError "Email sending failed: Sender email (EMAIL_FROM) is not configured.");;
    mret (SuccessMessage generic_reset_message)
  else
    let senderEmail := default "" (EMAIL_FROM env) in
    emit (ConsoleLog ("Attempting to send password reset email to "
                      +:+ usersTable.email user +:+ " from " +:+ senderEmail));;
    try_catch
      (emit (MailSend senderEmail (usersTable.email user) resetLink);;
       match resend_emails_send env with
       | MailThrows => throw MailError
       | MailRejected => emit (ConsoleError "Error sending password reset email:")
       | MailAccepted => emit (ConsoleLog "Password reset email sent successfully:")
       end)
      (fun emailError =>
         emit (ConsoleError "Caught exception sending password reset email:"));;
    emit (ConsoleLog ("Password reset initiated for email: " +:+ email
            +:+ ". Reset token generated, stored, and email conceptually sent."));;
    mret (SuccessMessage generic_reset_message).

(** [forgotPassword] with its [await]s: the select, the delete and the
    insert are three statements sent to the store one after the other,
    outside any transaction, and the function is suspended after each. *)
Definition forgotPassword_async (formData : FormData) : Async ActionResult :=
  let failed : Exn -> Action ActionResult :=
    fun error =>
      emit (ConsoleError "Error during forgot password process:");;
      mret (Failure [("_form", ["An unexpected error occurred."])]) in
  Suspended (fun w =>
    match forgotPasswordSchema formData with
    | ParseError fe =>
        settle (emit (ConsoleError "Forgot password validation failed:");;
                mret (Failure fe)) w
    | ParseOk email =>
        await (select_users (fun u => String.eqb (usersTable.email u) email) 1) failed
          (fun users =>
             match head users with
             | None =>
                 settle
                   (try_catch
                      (emit (ConsoleWarn ("Forgot password attempt for non-existent email: "
                                          +:+ email));;
                       mret (SuccessMessage generic_reset_message))
                      failed)
             | Some user =>
                 let resetToken := uuidv4 env in
                 let expiresAt := now env + 1 * 3600000 in
                 await (delete_resetTokens
                          (fun r => passwordResetTokensTable.userId r =? usersTable.id user))
                   failed
                   (fun _ =>
                      await (insert_resetToken
                               (passwordResetTokensTable.mk resetToken (usersTable.id user)
                                  expiresAt))
                        failed
                        (fun _ =>
                           settle (try_catch (send_reset_mail email user resetToken) failed)))
             end) w
    end).
End Overlapping.




Definition initial_world : World :=
  {| users := []; resetTokens := []; sessions := []; cookieStore := ∅;
     nextUserId := 1; trace := [] |}.

(** ** Store predicates used by the statements *)

(** The specification's [validate(token)]: the owning user if some row
    carries [t] and is unexpired at [now]. *)
Definition validate_resetToken (t : string) (now : Z) (w : World) : option Z :=
  passwordResetTokensTable.userId <$> List.find (token_valid_at t now) (resetTokens w).


Definition rows_of (i : Z) (w : World) : list ResetToken :=
  List.filter (fun r => passwordResetTokensTable.userId r =? i) (resetTokens w).

(** Every reset token belongs to a stored user (the foreign key). *)
Definition tokens_owned (w : World) : Prop :=
  Forall (fun r => user_exists (passwordResetTokensTable.userId r) w = true) (resetTokens w).

(** Every user id fits the [integer] column. *)
Definition ids_int4 (w : World) : Prop :=
  Forall (fun u => int4 (usersTable.id u) = true) (users w).

(** The guard of the callback, read positively: the request went past
    [if (!code || !state || !storedState || !storedCodeVerifier
         || state !== storedState)]. *)
Definition callback_validated (searchParams : list (string * string)) (w : World) : bool :=
  let code := searchParams_get "code" searchParams in
  let state := searchParams_get "state" searchParams in
  let storedState := value <$> cookieStore w !! "google_oauth_state" in
  let storedCodeVerifier := value <$> cookieStore w !! "google_code_verifier" in
  negb (negb (truthy code) || negb (truthy state) || negb (truthy storedState)
        || negb (truthy storedCodeVerifier) || negb (bool_decide (state = storedState))).

(** The cookie store after the two transient cookies are deleted. *)
Definition consume_transient_cookies (w : World) : World :=
  with_cookieStore
    (delete "google_code_verifier" (delete "google_oauth_state" (cookieStore w))) w.

(** The world a successful [resetPassword] leaves: the owner's hash is
    replaced, every row carrying the token is gone, one console line is
    written. *)
Definition password_reset_world (hashedPassword token : string) (user : User) (w : World)
  : World :=
  with_trace
    (trace w ++ [ConsoleLog ("Password successfully reset for user ID: "
                             +:+ toString (usersTable.id user))])
    (with_resetTokens
       (List.filter (fun r => negb (String.eqb (passwordResetTokensTable.token r) token))
          (resetTokens w))
       (with_users
          (map (fun u =>
                  if usersTable.id u =? usersTable.id user
                  then usersTable.mk (usersTable.id u) (usersTable.name u) (usersTable.email u)
                         (Some hashedPassword) (usersTable.email_verified u)
                         (usersTable.provider u) (usersTable.provider_id u)
                  else u) (users w)) w)).

(** No stored row carries the token [t]. *)
Definition token_absent (t : string) (w : World) : Prop :=
  forall r, In r (resetTokens w) -> passwordResetTokensTable.token r <> t.


(** No user has two reset-token rows. *)
Definition one_row_per_user (w : World) : Prop :=
  forall i, (List.length (rows_of i w) <= 1)%nat.

(** How one request may change the users table: the ids are kept (rows are
    at most rewritten in place), or one row with an id of the column's
    range is appended. *)
Definition users_shape (w w' : World) : Prop :=
  map usersTable.id (users w') = map usersTable.id (users w)
  \/ exists u, users w' = (users w ++ [u])%list /\ int4 (usersTable.id u) = true.

(** The value of a digit sequence read most significant first. *)
Fixpoint uint_value (d : Decimal.uint) (acc : Z) : Z :=
  match d with
  | Decimal.Nil => acc
  | Decimal.D0 d => uint_value d (10 * acc + 0)
  | Decimal.D1 d => uint_value d (10 * acc + 1)
  | Decimal.D2 d => uint_value d (10 * acc + 2)
  | Decimal.D3 d => uint_value d (10 * acc + 3)
  | Decimal.D4 d => uint_value d (10 * acc + 4)
  | Decimal.D5 d => uint_value d (10 * acc + 5)
  | Decimal.D6 d => uint_value d (10 * acc + 6)
  | Decimal.D7 d => uint_value d (10 * acc + 7)
  | Decimal.D8 d => uint_value d (10 * acc + 8)
  | Decimal.D9 d => uint_value d (10 * acc + 9)
  end.

(** The redirect the guard answers with: the signin page of the request's
    origin, the requested path attached under [callbackUrl]. *)
Definition signin_redirect (request : NextRequest) : NextResponse :=
  redirect_to {| url_origin := req_origin request; url_pathname := "/signin";
                 searchParams := [("callbackUrl", req_pathname request)] |}.

Definition has_protected_prefix (pathname : string) : Prop :=
  exists route rest, In route protectedRoutes /\ pathname = route +:+ rest.

(** ** Concrete instances, for examples *)

Definition demo_zod : Zod :=
  {| zod_email := fun s => existsb (Ascii.eqb "@") (list_ascii_of_string s);
     zod_uuid := fun s => Nat.eqb (String.length s) 36 |}.

(** A toy hasher: the digest is salt, a dollar sign, the plaintext. *)
Definition demo_bcrypt : Bcrypt :=
  {| bcrypt_hash := fun salt p => salt +:+ "$" +:+ p;
     bcrypt_compare := fun p h =>
       match index 0 "$" h with
       | Some i => String.eqb (substring (S i) (String.length h - S i) h) p
       | None => false
       end |}.

Definition demo_lucia : Lucia :=
  {| createSessionCookie := fun sid =>
       {| sc_name := "auth_session"; sc_value := sid;
          sc_attributes := {| value := sid; httpOnly := true; secure := false;
                              maxAge := Some 34560000; expires := None;
                              path := Some "/"; sameSite := Some "lax" |} |};
     sessionExpiresIn := 2592000000 |}.

Definition ann : User :=
  usersTable.mk 7 "Ann" "ann@x.com" (Some "s1$longenough1") false "email" None.

Definition bob : User :=
  usersTable.mk 8 "Bob" "bob@x.com" None true "google" (Some "g-1001").

Definition T1 : string := "11111111-1111-4111-8111-111111111111".
Definition T2 : string := "22222222-2222-4222-8222-222222222222".

Definition demo_google_user : GoogleUser :=
  {| sub := "g-2002"; g_email := Some "cy@x.com"; g_name := Some "Cy" |}.

Definition demo_env : Env :=
  {| now := 1000; uuidv4 := T1; salt := "s2";
     generateState := "st-1"; generateCodeVerifier := "cv-1";
     generateSessionId := "sess-1"; NODE_ENV := "development";
     EMAIL_FROM := Some "noreply@x.com"; NEXT_PUBLIC_APP_URL := Some "http://x.com";
     GOOGLE_AUTHORIZATION_URL := Some "https://accounts.google.com/o/oauth2/v2/auth";
     resend_emails_send := MailAccepted;
     googleOAuth_validateCallback := fun _ => ProviderUser demo_google_user;
     auth_createSession_reply := SessionStored |}.

Definition demo_world : World :=
  {| users := [ann; bob]; resetTokens := []; sessions := []; cookieStore := ∅;
     nextUserId := 9; trace := [] |}.

Definition form (fields : list (string * string)) : FormData := list_to_map fields.

Definition jar (cs : list (string * string)) : gmap string Cookie :=
  list_to_map
    (map (fun kv => (fst kv, {| value := snd kv; httpOnly := true; secure := false;
                               maxAge := None; expires := None; path := Some "/";
                               sameSite := None |})) cs).

(** A browser that started a Google signin: both transient cookies set. *)
Definition pending_world : World :=
  with_cookieStore (jar [("google_oauth_state", "st-1"); ("google_code_verifier", "cv-1")])
    demo_world.

Definition good_query : list (string * string) := [("code", "c0de"); ("state", "st-1")].
Definition forged_query : list (string * string) := [("code", "c0de"); ("state", "bad")].

Definition ann_signin : FormData := form [("email", "ann@x.com"); ("password", "longenough1")].
Definition ann_wrong_password : FormData := form [("email", "ann@x.com"); ("password", "wrong")].
Definition bob_signin : FormData := form [("email", "bob@x.com"); ("password", "whatever")].
Definition nobody_signin : FormData := form [("email", "zed@x.com"); ("password", "whatever")].
Definition ann_forgot : FormData := form [("email", "ann@x.com")].

Definition reset_form (t password : string) : FormData :=
  form [("token", t); ("password", password); ("confirmPassword", password)].

(** A later run: another clock, another uuid. *)
Definition later_env : Env :=
  {| now := 5000; uuidv4 := T2; salt := "s3";
     generateState := "st-2"; generateCodeVerifier := "cv-2";
     generateSessionId := "sess-2"; NODE_ENV := "production";
     EMAIL_FROM := None; NEXT_PUBLIC_APP_URL := None;
     GOOGLE_AUTHORIZATION_URL := None;
     resend_emails_send := MailThrows;
     googleOAuth_validateCallback := fun _ => ProviderRejects;
     auth_createSession_reply := SessionRejects |}.

(** Ann asked for a reset link: the store holds her token [T1]. *)
Definition issued_world : World :=
  world_after (forgotPassword (H:=demo_zod) demo_env ann_forgot demo_world).

(** She used it. *)
Definition consumed_world : World :=
  world_after (resetPassword (H:=demo_zod) (H0:=demo_bcrypt) demo_env
                 (reset_form T1 "newpass123") issued_world).

(** Bob's browser presents the cookie [session=8]; nobody signed in. *)
Definition forged_session_world : World :=
  with_cookieStore (jar [("session", "8")]) demo_world.

(** A request for the dashboard that carries an empty [session] cookie. *)
Definition empty_session_request : NextRequest :=
  {| req_origin := "http://x.com"; req_pathname := "/dashboard";
     req_cookies := {["session" := ""]} |}.

(** A run on which Google vouches for Bob, subject [g-1001], and Lucia's
    session call rejects. *)
Definition bob_google_user : GoogleUser :=
  {| sub := "g-1001"; g_email := Some "bob@x.com"; g_name := Some "Bob" |}.

Definition bob_env : Env :=
  {| now := 1000; uuidv4 := T1; salt := "s2";
     generateState := "st-1"; generateCodeVerifier := "cv-1";
     generateSessionId := "sess-1"; NODE_ENV := "development";
     EMAIL_FROM := Some "noreply@x.com"; NEXT_PUBLIC_APP_URL := Some "http://x.com";
     GOOGLE_AUTHORIZATION_URL := Some "https://accounts.google.com/o/oauth2/v2/auth";
     resend_emails_send := MailAccepted;
     googleOAuth_validateCallback := fun _ => ProviderUser bob_google_user;
     auth_createSession_reply := SessionRejects |}.



(** Cy, who has no account, and Ann once more. *)
Definition cy_signup : FormData :=
  form [("name", "Cy"); ("email", "cy@x.com"); ("password", "longenough3")].
Definition ann_again_signup : FormData :=
  form [("name", "Ann B"); ("email", "ann@x.com"); ("password", "longenough2")].
Definition ann_new_signin : FormData :=
  form [("email", "ann@x.com"); ("password", "newpass123")].

(** From the empty store: Cy signed up, then his browser started a Google
    signin. *)
Definition cy_pending_world : World :=
  with_cookieStore (jar [("google_oauth_state", "st-1"); ("google_code_verifier", "cv-1")])
    (serve (H:=demo_zod) (H0:=demo_bcrypt) (H1:=demo_lucia) demo_env (Signup cy_signup)
       initial_world).

(** A reset form whose confirmation differs in its last character. *)
Definition mismatched_reset_form : FormData :=
  form [("token", T1); ("password", "newpass123"); ("confirmPassword", "newpass124")].

(** The run that starts exactly one hour after [demo_env]. *)
Definition hour_later_env : Env :=
  {| now := 3601000; uuidv4 := T2; salt := "s3";
     generateState := "st-2"; generateCodeVerifier := "cv-2";
     generateSessionId := "sess-2"; NODE_ENV := "production";
     EMAIL_FROM := None; NEXT_PUBLIC_APP_URL := None;
     GOOGLE_AUTHORIZATION_URL := None;
     resend_emails_send := MailThrows;
     googleOAuth_validateCallback := fun _ => ProviderRejects;
     auth_createSession_reply := SessionRejects |}.

(** A browser whose [session] cookie is Ann's id followed by letters. *)
Definition lenient_session_world : World :=
  with_cookieStore (jar [("session", "7abc")]) demo_world.



(** Draws for the password generator: every fifth character. *)
Definition every_fifth (k : nat) : Z := Z.of_nat k * 5.

(** ** The client forms ([signup-form.tsx], [signin-form.tsx]) *)

Definition charset : string :=
  "abcdefghijklmnopqrstuvwxyzABCDEFGHIJKLMNOPQRSTUVWXYZ0123456789!@#$%^&*()".

(** [s.charAt(i)]: the empty string outside the string. *)
Definition charAt (s : string) (i : Z) : string :=
  if i <? 0 then ""
  else match String.get (Z.to_nat i) s with
       | Some c => String c ""
       | None => ""
       end.

(** The loop of [generatePassword], [remaining] turns before its end;
    [rnd i] is the value of [Math.floor(Math.random() * n)] on turn [i]. *)
Fixpoint generatePassword_from (rnd : nat -> Z) (i remaining : nat) (retVal : string)
  : string :=
  match remaining with
  | O => retVal
  | S remaining' =>
      generatePassword_from rnd (S i) remaining' (retVal +:+ charAt charset (rnd i))
  end.

Definition generatePassword (rnd : nat -> Z) : string :=
  let length := 12%nat in
  generatePassword_from rnd 0 length "".

(** What a form shows: its error line, its busy flag, the routes it pushed
    and its lines on the browser console. *)
Record FormState := {
  ui_error : option string;
  ui_isLoading : bool;
  ui_pushed : list string;
  ui_console : list Event;
}.

Definition setError (e : option string) (ui : FormState) : FormState :=
  {| ui_error := e; ui_isLoading := ui_isLoading ui; ui_pushed := ui_pushed ui;
     ui_console := ui_console ui |}.

Definition setIsLoading (b : bool) (ui : FormState) : FormState :=
  {| ui_error := ui_error ui; ui_isLoading := b; ui_pushed := ui_pushed ui;
     ui_console := ui_console ui |}.

Definition router_push (route : string) (ui : FormState) : FormState :=
  {| ui_error := ui_error ui; ui_isLoading := ui_isLoading ui;
     ui_pushed := ui_pushed ui ++ [route]; ui_console := ui_console ui |}.

Definition browser_console (e : Event) (ui : FormState) : FormState :=
  {| ui_error := ui_error ui; ui_isLoading := ui_isLoading ui; ui_pushed := ui_pushed ui;
     ui_console := ui_console ui ++ [e] |}.


(** [result?.success] *)
Definition result_success (r : ActionResult) : bool :=
  match r with Failure _ => false | _ => true end.

(** [result?.error?.[key]] *)
Definition result_error (key : string) (r : ActionResult) : option (list string) :=
  match r with
  | Failure fe => snd <$> List.find (fun kv => String.eqb (fst kv) key) fe
  | _ => None
  end.

(** The branch of a submit handler that reads the action's result;
    [fallback] is the message of its last [else]. *)
Definition show_failure (fallback : string) (result : ActionResult) (ui : FormState)
  : FormState :=
  match result_error "_form" result with
  | Some _form => setError (head _form) ui
  | None =>
      match result_error "email" result with
      | Some email => setError (head email) ui
      | None => setError (Some fallback) ui
      end
  end.

Section ClientForms.
Context `{!Zod, !Bcrypt}.
Variable env : Env.


(** The [formSchema] of the signin form. *)
Definition signin_formSchema (email password : string) : FieldErrors :=
  fieldErrors_of
    [("email", field_issues (Some email) [(zod_email, "Enter a valid email address")]);
     ("password", field_issues (Some password) [(min_length 1, "Password is required")])].


(** [onSubmit] of the signin form. *)
Definition signin_onSubmit (email password : string) (ui : FormState) (w : World)
  : FormState * World :=
  let ui := setError None ui in
  let ui := setIsLoading true ui in
  let ui := browser_console (ConsoleLog "Attempting to sign in with:") ui in
  let formData : FormData := <["password" := password]> (<["email" := email]> ∅) in
  let '(outcome, w') := signin env formData w in
  let ui :=
    match outcome with
    | Returned result =>
        if result_success result
        then
          let ui := browser_console (ConsoleLog "Signin successful, redirecting...") ui in
          router_push "/dashboard" ui
        else
          let ui := browser_console (ConsoleError "Signin failed:") ui in
          show_failure "An unexpected error occurred during signin." result ui
    | Thrown err =>
        let ui := browser_console (ConsoleError "Error executing signin action:") ui in
        setError (Some "An unexpected error occurred. Please try again.") ui
    end in
  (setIsLoading false ui, w').
End ClientForms.

(** ** Further store predicates *)

(** Every stored account is a password account without a provider id,
    and no session row is stored. *)
Definition password_accounts_only (w : World) : Prop :=
  Forall (fun u => usersTable.provider u = "email" /\ usersTable.provider_id u = None)
    (users w)
  /\ sessions w = [].

(** ** The browser's requests *)

(** The request the browser sends for [pathname] with the cookies it holds
    in the world [w]. *)
Definition request_for (origin pathname : string) (w : World) : NextRequest :=
  {| req_origin := origin; req_pathname := pathname;
     req_cookies := value <$> cookieStore w |}.

(** * Properties *)

(** ** Strings *)

Lemma startsWith_prefix (s p : string) :
  startsWith s p = true <-> exists rest, s = p +:+ rest.
Proof.
  revert s. induction p as [|a p IH]; intros s; simpl.
  - split; [intros _; now exists s | reflexivity].
  - destruct s as [|b s]; simpl.
    + split; [discriminate | intros [rest Hrest]; discriminate].
    + rewrite andb_true_iff, Ascii.eqb_eq, IH. split.
      * intros [-> [rest ->]]. now exists rest.
      * intros [rest Hrest]. injection Hrest as -> ->. split; [reflexivity | now exists rest].
Qed.

Lemma truthy_false (v : option string) :
  truthy v = false <-> v = None \/ v = Some "".
Proof.
  destruct v as [s|]; simpl.
  - rewrite negb_false_iff, String.eqb_eq. split.
    + intros ->. now right.
    + intros [H|H]; congruence.
  - split; [now left | reflexivity].
Qed.

Lemma truthy_true (v : option string) :
  truthy v = true <-> exists s, v = Some s /\ s <> "".
Proof.
  destruct v as [s|]; simpl.
  - rewrite negb_true_iff, String.eqb_neq. split.
    + intros Hs. now exists s.
    + intros [s' [[= <-] Hs]]. exact Hs.
  - split; [discriminate | intros [s [[=] _]]].
Qed.

(** ** Decimal rendering and [parseInt] *)

Lemma digits_prefix_string_of_uint (d : Decimal.uint) (acc : Z) :
  digits_prefix (NilEmpty.string_of_uint d) acc = uint_value d acc.
Proof.
  revert acc. induction d; intros acc; simpl; try apply IHd. reflexivity.
Qed.

Lemma of_uint_acc_value (d : Decimal.uint) (acc : positive) :
  Z.pos (Pos.of_uint_acc d acc) = uint_value d (Z.pos acc).
Proof.
  revert acc. induction d; intros acc; simpl; try (rewrite IHd; f_equal; lia). reflexivity.
Qed.

Lemma of_uint_value (d : Decimal.uint) :
  Z.of_N (Pos.of_uint d) = uint_value d 0.
Proof.
  induction d; simpl; try apply of_uint_acc_value; [reflexivity | exact IHd].
Qed.

Lemma toNumber_exact (z : Z) : Z.abs z < 2 ^ 53 -> toNumber z = z.
Proof.
  intros Hsmall. unfold toNumber. apply Z.ltb_lt in Hsmall. now rewrite Hsmall.
Qed.

Lemma digits_prefix_cons (c : ascii) (rest : string) (acc k : Z) :
  digit_of c = Some k -> digits_prefix (String c rest) acc = digits_prefix rest (10 * acc + k).
Proof. intros Hc. simpl. now rewrite Hc. Qed.

Lemma parseInt_string_of_uint (d : Decimal.uint) :
  d <> Decimal.Nil ->
  parseInt (NilEmpty.string_of_uint d) = Some (toNumber (uint_value d 0))
  /\ parseInt (String "-" (NilEmpty.string_of_uint d)) = Some (toNumber (- uint_value d 0)).
Proof.
  intros Hd. destruct d; [congruence| ..].
  all: split; unfold parseInt; simpl trimStart; simpl starts_with_digit; cbv iota beta.
  all: replace (starts_with_digit _) with true by reflexivity.
  all: erewrite digits_prefix_cons by reflexivity.
  all: rewrite digits_prefix_string_of_uint; cbn [uint_value]; do 2 f_equal.
  all: rewrite Z.mul_1_l; reflexivity.
Qed.

Example parseInt_examples :
  parseInt "42" = Some 42 /\ parseInt "  -7" = Some (-7) /\ parseInt "12abc" = Some 12
  /\ parseInt "0x10" = Some 0 /\ parseInt "" = None /\ parseInt "abc" = None
  /\ parseInt "-" = None /\ parseInt "9007199254740993" = Some 9007199254740992.
Proof. repeat split; reflexivity. Qed.

(** Reading back what [toString] wrote gives the number, for every value of
    an [integer] column. *)
Lemma parseInt_toString (n : Z) : int4 n = true -> parseInt (toString n) = Some n.
Proof.
  intros Hint. unfold int4 in Hint. apply andb_true_iff in Hint as [Hlo Hhi].
  apply Z.leb_le in Hlo, Hhi. unfold toString.
  destruct n as [|p|p]; [reflexivity| |].
  - simpl. unfold NilZero.string_of_uint.
    pose proof (DecimalPos.Unsigned.to_uint_nonnil p) as Hnil.
    destruct (Pos.to_uint p) eqn:Hp; [congruence| ..];
      rewrite <- Hp in *;
      (rewrite (proj1 (parseInt_string_of_uint _ Hnil)), <- of_uint_value,
         DecimalPos.Unsigned.of_to; simpl; rewrite toNumber_exact; [reflexivity | lia]).
  - simpl. unfold NilZero.string_of_uint.
    pose proof (DecimalPos.Unsigned.to_uint_nonnil p) as Hnil.
    destruct (Pos.to_uint p) eqn:Hp; [congruence| ..];
      rewrite <- Hp in *;
      (rewrite (proj2 (parseInt_string_of_uint _ Hnil)), <- of_uint_value,
         DecimalPos.Unsigned.of_to; simpl; rewrite toNumber_exact; [reflexivity | lia]).
Qed.

Lemma append_cons (c : ascii) (s t : string) : String c s +:+ t = String c (s +:+ t).
Proof. reflexivity. Qed.


(** A number's decimal string is never empty. *)
Lemma toString_nonempty (n : Z) : toString n <> "".
Proof.
  unfold toString. destruct n as [|p|p]; simpl.
  - discriminate.
  - destruct (Pos.to_uint p); discriminate.
  - discriminate.
Qed.

Lemma length_append (s t : string) :
  String.length (s +:+ t) = (String.length s + String.length t)%nat.
Proof.
  induction s as [|c s IH]; [reflexivity|].
  rewrite append_cons. simpl. now rewrite IH.
Qed.

Lemma list_ascii_of_string_append (s t : string) :
  list_ascii_of_string (s +:+ t)
  = (list_ascii_of_string s ++ list_ascii_of_string t)%list.
Proof.
  induction s as [|c s IH]; [reflexivity|].
  rewrite append_cons. simpl. now rewrite IH.
Qed.

Lemma get_in_string (s : string) (n : nat) :
  (n < String.length s)%nat ->
  exists c, String.get n s = Some c /\ In c (list_ascii_of_string s).
Proof.
  revert n. induction s as [|c s IH]; simpl; intros n Hn; [lia|].
  destruct n as [|n].
  - exists c. auto.
  - destruct (IH n) as (c' & Hget & Hin); [lia|]. exists c'. auto.
Qed.

(** [charAt] inside the string gives one of its characters. *)
Lemma charAt_in_range (s : string) (i : Z) :
  0 <= i < Z.of_nat (String.length s) ->
  exists c, charAt s i = String c "" /\ In c (list_ascii_of_string s).
Proof.
  intros Hi. unfold charAt.
  destruct (i <? 0) eqn:Hneg; [apply Z.ltb_lt in Hneg; lia|].
  destruct (get_in_string s (Z.to_nat i)) as (c & Hget & Hin); [lia|].
  rewrite Hget. eauto.
Qed.

(** The loop adds one character of the charset on every turn. *)
Lemma generatePassword_from_spec (rnd : nat -> Z) (remaining i : nat) (retVal : string) :
  (forall k, (i <= k < i + remaining)%nat ->
             0 <= rnd k < Z.of_nat (String.length charset)) ->
  String.length (generatePassword_from rnd i remaining retVal)
  = (String.length retVal + remaining)%nat
  /\ forall c, In c (list_ascii_of_string (generatePassword_from rnd i remaining retVal)) ->
               In c (list_ascii_of_string retVal) \/ In c (list_ascii_of_string charset).
Proof.
  revert i retVal. induction remaining as [|remaining IH]; intros i retVal Hrnd; simpl.
  - split; [lia | auto].
  - destruct (charAt_in_range charset (rnd i)) as (c0 & Hc0 & Hin0); [apply Hrnd; lia|].
    destruct (IH (S i) (retVal +:+ charAt charset (rnd i))) as (Hlen & Hchars).
    { intros k Hk. apply Hrnd. lia. }
    split.
    + rewrite Hlen, length_append, Hc0. simpl. lia.
    + intros c Hc. apply Hchars in Hc as [Hc|Hc]; [|now right].
      rewrite list_ascii_of_string_append, Hc0 in Hc.
      apply in_app_or in Hc as [Hc|[<-|[]]]; auto.
Qed.

Lemma digits_prefix_append (d : Decimal.uint) (suffix : string) (acc : Z) :
  starts_with_digit suffix = false ->
  digits_prefix (NilEmpty.string_of_uint d +:+ suffix) acc = uint_value d acc.
Proof.
  intros Hsuffix. revert acc. induction d; intros acc; simpl; try apply IHd.
  destruct suffix as [|c suffix]; [reflexivity|]. simpl in *.
  destruct (digit_of c); [discriminate | reflexivity].
Qed.

Lemma parseInt_string_of_uint_append (d : Decimal.uint) (suffix : string) :
  d <> Decimal.Nil ->
  starts_with_digit suffix = false ->
  parseInt (NilEmpty.string_of_uint d +:+ suffix) = Some (toNumber (uint_value d 0))
  /\ parseInt (String "-" (NilEmpty.string_of_uint d) +:+ suffix)
     = Some (toNumber (- uint_value d 0)).
Proof.
  intros Hd Hsuffix. destruct d; [congruence| ..].
  all: split; unfold parseInt; simpl String.append; simpl trimStart;
    simpl starts_with_digit; cbv iota beta; simpl String.append.
  all: replace (starts_with_digit _) with true by reflexivity.
  all: rewrite ?append_cons.
  all: erewrite digits_prefix_cons by reflexivity.
  all: rewrite (digits_prefix_append _ _ _ Hsuffix); cbn [uint_value]; do 2 f_equal.
  all: rewrite Z.mul_1_l; reflexivity.
Qed.

(** [parseInt] stops at the first character that is no digit. *)
Lemma parseInt_toString_append (n : Z) (suffix : string) :
  int4 n = true -> starts_with_digit suffix = false ->
  parseInt (toString n +:+ suffix) = Some n.
Proof.
  intros Hint Hsuffix. unfold int4 in Hint. apply andb_true_iff in Hint as [Hlo Hhi].
  apply Z.leb_le in Hlo, Hhi. unfold toString.
  destruct n as [|p|p].
  - simpl. unfold parseInt. simpl trimStart. cbv iota beta.
    replace (starts_with_digit _) with true by reflexivity.
    erewrite digits_prefix_cons by reflexivity.
    destruct suffix as [|c suffix]; [reflexivity|]. simpl in *.
    destruct (digit_of c); [discriminate | reflexivity].
  - simpl. unfold NilZero.string_of_uint.
    pose proof (DecimalPos.Unsigned.to_uint_nonnil p) as Hnil.
    destruct (Pos.to_uint p) eqn:Hp; [congruence| ..];
      rewrite <- Hp in *;
      (rewrite (proj1 (parseInt_string_of_uint_append _ _ Hnil Hsuffix)), <- of_uint_value,
         DecimalPos.Unsigned.of_to; simpl; rewrite toNumber_exact; [reflexivity | lia]).
  - simpl. unfold NilZero.string_of_uint.
    pose proof (DecimalPos.Unsigned.to_uint_nonnil p) as Hnil.
    destruct (Pos.to_uint p) eqn:Hp; [congruence| ..];
      rewrite <- Hp in *;
      (rewrite (proj2 (parseInt_string_of_uint_append _ _ Hnil Hsuffix)), <- of_uint_value,
         DecimalPos.Unsigned.of_to; simpl; rewrite toNumber_exact; [reflexivity | lia]).
Qed.

(** ** The access guard *)

Lemma isProtectedRoute_prefix (pathname : string) :
  isProtectedRoute pathname = true <-> has_protected_prefix pathname.
Proof.
  unfold isProtectedRoute, has_protected_prefix. rewrite existsb_exists. split.
  - intros [route [Hin Hst]]. apply startsWith_prefix in Hst as [rest ->]. eauto.
  - intros [route [rest [Hin ->]]]. exists route. split; [exact Hin|].
    apply startsWith_prefix. eauto.
Qed.

(** C8, as stated, fails: a request for a protected path that does carry a
    [session] cookie, with an empty value, is redirected all the same. *)
Lemma middleware_presence_counterexample :
  ~ (middleware empty_session_request = signin_redirect empty_session_request
     <-> has_protected_prefix (req_pathname empty_session_request)
         /\ req_cookies empty_session_request !! "session" = None).
Proof.
  intros [Hredirect _].
  assert (Hrun : middleware empty_session_request = signin_redirect empty_session_request)
    by (vm_compute; reflexivity).
  destruct (Hredirect Hrun) as [_ Habsent].
  vm_compute in Habsent. discriminate.
Qed.

(** C8, amended: the guard answers with the signin redirect carrying the
    requested path iff the path starts with a protected prefix and the
    [session] cookie is absent or has an empty value; in every other case it
    lets the request through; and its answer is a function of the path, the
    origin and the emptiness of that cookie value alone (no store is read). *)
Theorem middleware_guard :
  forall request : NextRequest,
    (middleware request = signin_redirect request
     <-> has_protected_prefix (req_pathname request)
         /\ (req_cookies request !! "session" = None
             \/ req_cookies request !! "session" = Some ""))
    /\ (middleware request <> signin_redirect request -> middleware request = next)
    /\ (forall request' : NextRequest,
          req_origin request' = req_origin request ->
          req_pathname request' = req_pathname request ->
          truthy (req_cookies request' !! "session")
          = truthy (req_cookies request !! "session") ->
          middleware request' = middleware request).
Proof.
  intros request. unfold middleware, signin_redirect, searchParams_append. simpl.
  rewrite <- isProtectedRoute_prefix, <- truthy_false.
  split; [|split].
  - destruct (isProtectedRoute (req_pathname request));
      destruct (truthy (req_cookies request !! "session")); simpl;
      split; try tauto; try discriminate; intros [? ?]; discriminate.
  - destruct (isProtectedRoute (req_pathname request)
              && negb (truthy (req_cookies request !! "session")));
      [intros H; now contradiction H | reflexivity].
  - intros request' -> -> ->. reflexivity.
Qed.

(** ** Running actions *)

Ltac unfold_store :=
  unfold select_users_by_id, select_users, select_resetTokens, delete_resetTokens,
    insert_resetToken, insert_session, insert_user_returning, insert_user,
    update_hashed_password,
    cookies_get, cookies_set, cookies_delete, redirect, emit, modify, throw.

Ltac run_action :=
  unfold_store; unfold try_catch, mbind, action_bind, mret, action_ret; simpl.

(** Case analysis on the innermost test the goal still branches on. *)
Ltac break_goal :=
  repeat (simpl;
          match goal with
          | |- context [match ?x with _ => _ end] =>
              lazymatch x with
              | context [match _ with _ => _ end] => fail
              | _ => destruct x eqn:?
              end
          end).

Lemma head_take_filter {A} (p : A -> bool) (l : list A) :
  head (take 1 (List.filter p l)) = List.find p l.
Proof.
  induction l as [|x l IH]; simpl; [reflexivity|].
  destruct (p x); simpl; [reflexivity | exact IH].
Qed.

Lemma filter_keep_all {A} (l : list A) : l = List.filter (fun _ => true) l.
Proof. induction l as [|x l IH]; simpl; congruence. Qed.

Lemma length_filter_filter {A} (p q : A -> bool) (l : list A) :
  (List.length (List.filter p (List.filter q l)) <= List.length (List.filter p l))%nat.
Proof.
  induction l as [|x l IH]; [apply Nat.le_refl|].
  simpl. destruct (q x), (p x) eqn:Hp; simpl; rewrite ?Hp; simpl; lia.
Qed.

Lemma filter_filter_negb_nil {A} (p : A -> bool) (l : list A) :
  List.filter p (List.filter (fun x => negb (p x)) l) = [].
Proof.
  induction l as [|x l IH]; [reflexivity|].
  simpl. destruct (p x) eqn:Hp; simpl; rewrite ?Hp; exact IH.
Qed.

Lemma filter_singleton {A} (p : A -> bool) (x : A) :
  List.filter p [x] = if p x then [x] else [].
Proof. reflexivity. Qed.

Lemma find_app {A} (p : A -> bool) (l1 l2 : list A) :
  List.find p (l1 ++ l2)
  = match List.find p l1 with Some x => Some x | None => List.find p l2 end.
Proof.
  induction l1 as [|x l1 IH]; [reflexivity|]. simpl. destruct (p x); [reflexivity|exact IH].
Qed.


Lemma take_filter_find {A} (p : A -> bool) (l : list A) :
  take 1 (List.filter p l) = match List.find p l with Some x => [x] | None => [] end.
Proof.
  induction l as [|x l IH]; simpl; [reflexivity|].
  destruct (p x); simpl; [|exact IH]. now rewrite take_0.
Qed.

Lemma filter_cons_if {A} (p : A -> bool) (x : A) (l : list A) :
  List.filter p (x :: l) = if p x then x :: List.filter p l else List.filter p l.
Proof. reflexivity. Qed.

Lemma filter_nil_eq {A} (p : A -> bool) : List.filter p [] = [].
Proof. reflexivity. Qed.

Lemma find_map_preserved {A} (p : A -> bool) (f : A -> A) (l : list A) :
  (forall x, p (f x) = p x) -> List.find p (map f l) = f <$> List.find p l.
Proof.
  intros Hp. induction l as [|x l IH]; simpl; [reflexivity|].
  rewrite Hp. destruct (p x); [reflexivity | exact IH].
Qed.

Lemma find_user_exists (p : User -> bool) (w : World) (u : User) :
  List.find p (users w) = Some u -> user_exists (usersTable.id u) w = true.
Proof.
  intros Hfind. apply find_some in Hfind as [Hin _].
  unfold user_exists. apply existsb_exists. exists u. split; [exact Hin | apply Z.eqb_refl].
Qed.

#[local] Arguments take : simpl never.
#[local] Arguments List.filter : simpl never.
#[local] Arguments head : simpl never.
#[local] Arguments toString : simpl never.
#[local] Arguments parseInt : simpl never.
#[local] Arguments String.append : simpl never.
#[local] Arguments int4 : simpl never.
#[local] Arguments varchar : simpl never.

Section Properties.
Context `{!Zod, !Bcrypt, !Lucia}.

(** *** The OAuth callback: validation *)

Lemma callback_guard_rejects (searchParams : list (string * string)) (w : World) :
  callback_validated searchParams w = false ->
  forall env,
    handleGoogleOAuthCallback env searchParams w
    = (Returned (CallbackFailed state_mismatch_error),
       with_trace
         (trace w ++ [ConsoleError
            "Google OAuth callback failed: State or code verifier mismatch or missing."]) w).
Proof.
  intros Hguard env. unfold callback_validated in Hguard.
  apply negb_false_iff in Hguard. simpl in Hguard.
  unfold handleGoogleOAuthCallback. run_action.
  rewrite Hguard. reflexivity.
Qed.

(** *** Account resolution and the session tail *)

Lemma find_none_existsb {A} (p : A -> bool) (l : list A) :
  List.find p l = None -> existsb p l = false.
Proof.
  induction l as [|x l IH]; simpl; [reflexivity|].
  destruct (p x); [discriminate | exact IH].
Qed.

Lemma resolve_account_existing userEmail googleId userName w u :
  List.find (fun u => eq_opt (usersTable.provider_id u) googleId) (users w) = Some u ->
  resolve_account userEmail googleId userName w
  = (Returned (inl (usersTable.id u)),
     with_trace
       (trace w ++ [ConsoleLog ("Existing Google user found, signing in: "
                                +:+ toString (usersTable.id u))]) w).
Proof.
  intros Hfind. unfold resolve_account. run_action.
  rewrite head_take_filter, Hfind. reflexivity.
Qed.

(** Without a row for the subject nothing is created: the call of
    [auth.createUser] raises, the inner [catch] logs and answers
    [database error]. *)
Lemma resolve_account_missing userEmail googleId userName w :
  List.find (fun u => eq_opt (usersTable.provider_id u) googleId) (users w) = None ->
  resolve_account userEmail googleId userName w
  = (Returned (inr (CallbackFailed "database error")),
     with_trace (trace w ++ [ConsoleLog "New Google user, creating account...";
                             ConsoleLog "[error]"]) w).
Proof.
  intros Hfind. unfold resolve_account, auth_createUser. run_action.
  rewrite head_take_filter, Hfind. simpl. rewrite <- app_assoc. reflexivity.
Qed.

Lemma establish_session_fresh env uid w :
  auth_createSession_reply env = SessionStored ->
  existsb (fun s => String.eqb (sessionsTable.id s) (generateSessionId env)) (sessions w)
  = false ->
  user_exists uid w = true ->
  exists w',
    establish_session env uid w = (Returned (CallbackOk uid), w')
    /\ users w' = users w
    /\ sessions w'
       = (sessions w
          ++ [sessionsTable.mk (generateSessionId env) uid (now env + sessionExpiresIn)])%list.
Proof.
  intros Hreply Hfresh Huser. unfold establish_session, auth_createSession.
  rewrite Hreply. run_action. rewrite Hfresh, Huser.
  eexists. split; [reflexivity|]. simpl. auto.
Qed.

(** Whatever becomes of the session, the tail touches no user row, asks
    the provider nothing and writes no cookie but Lucia's own. *)
Lemma establish_session_frame env uid w :
  let r := establish_session env uid w in
  users (snd r) = users w
  /\ List.filter is_provider_call (trace (snd r)) = List.filter is_provider_call (trace w)
  /\ (forall n, (forall sid, sc_name (createSessionCookie sid) <> n) ->
                cookieStore (snd r) !! n = cookieStore w !! n)
  /\ (fst r = Returned (CallbackOk uid) \/ exists e, r = (Thrown e, w)).
Proof.
  unfold establish_session, auth_createSession.
  destruct (auth_createSession_reply env); run_action.
  2:{ repeat split; eauto. }
  destruct (existsb _ (sessions w)); simpl.
  { repeat split; eauto. }
  destruct (user_exists uid w); simpl.
  - rewrite List.filter_app. simpl. rewrite app_nil_r.
    repeat split; auto.
    intros n Hn. apply lookup_insert_ne. apply Hn.
  - repeat split; eauto.
Qed.

Lemma establish_session_rejects env uid w :
  auth_createSession_reply env = SessionRejects ->
  establish_session env uid w = (Thrown SessionError, w).
Proof.
  intros Hreply. unfold establish_session, auth_createSession.
  rewrite Hreply. reflexivity.
Qed.

(** The tail stores at most one session row, for the user it was given. *)
Lemma establish_session_sessions env uid w :
  let r := establish_session env uid w in
  sessions (snd r) = sessions w
  \/ sessions (snd r)
     = (sessions w
        ++ [sessionsTable.mk (generateSessionId env) uid (now env + sessionExpiresIn)])%list.
Proof.
  unfold establish_session, auth_createSession.
  destruct (auth_createSession_reply env); run_action; [|now left].
  destruct (existsb _ (sessions w)); simpl; [now left|].
  destruct (user_exists uid w); simpl; [now right | now left].
Qed.

(** The world once the callback went past its guard and consumed the two
    transient cookies. *)
Lemma callback_run_validated env searchParams w :
  callback_validated searchParams w = true ->
  handleGoogleOAuthCallback env searchParams w
  = try_catch
      (googleUser ← validateCallback env (default "" (searchParams_get "code" searchParams));
       if negb (truthy (g_email googleUser))
       then
         emit (ConsoleError "Google OAuth callback failed: Email not provided by Google.");;
         mret (CallbackFailed "Authentication failed (email missing from Google).")
       else
         resolved ← resolve_account (default "" (g_email googleUser)) (sub googleUser)
                      (g_name googleUser);
         match resolved with
         | inr early => mret early
         | inl dbUserId => establish_session env dbUserId
         end)
      (fun error =>
         emit (ConsoleError "Error handling Google OAuth callback:");;
         mret (CallbackFailed "Authentication failed."))
      (consume_transient_cookies w).
Proof.
  intros Hguard. unfold callback_validated in Hguard.
  apply negb_true_iff in Hguard. simpl in Hguard.
  unfold handleGoogleOAuthCallback.
  unfold cookies_get, cookies_delete, modify, mbind at 1 2 3 4, action_bind. simpl.
  rewrite Hguard. reflexivity.
Qed.

(** Resolution always returns, and leaves cookies, sessions and the rows
    already stored as they were. *)
Lemma resolve_account_frame userEmail googleId userName w :
  exists res w',
    resolve_account userEmail googleId userName w = (Returned res, w')
    /\ cookieStore w' = cookieStore w
    /\ sessions w' = sessions w
    /\ List.filter is_provider_call (trace w') = List.filter is_provider_call (trace w)
    /\ users w' = users w
    /\ nextUserId w' = nextUserId w.
Proof.
  destruct (List.find (fun u => eq_opt (usersTable.provider_id u) googleId) (users w))
    as [u|] eqn:Hfind.
  - rewrite (resolve_account_existing _ _ _ _ _ Hfind).
    eexists _, _. split; [reflexivity|]. simpl.
    rewrite List.filter_app. simpl. rewrite app_nil_r. auto.
  - rewrite (resolve_account_missing _ _ _ _ Hfind).
    eexists _, _. split; [reflexivity|]. simpl.
    rewrite List.filter_app. simpl. rewrite app_nil_r. auto.
Qed.

#[local] Arguments resolve_account : simpl never.
#[local] Arguments establish_session : simpl never.

(** C3: when the query [state] is absent, the stored state cookie is
    absent, the two differ, or the query [code] is absent, the callback
    returns its failure result having asked the provider nothing: the run
    adds one console line to the trace and no call to [validateCallback],
    and leaves users and sessions as they were. *)
Theorem callback_rejected_before_provider env searchParams w :
  let code := searchParams_get "code" searchParams in
  let state := searchParams_get "state" searchParams in
  let storedState := value <$> cookieStore w !! "google_oauth_state" in
  state = None \/ storedState = None \/ state <> storedState \/ code = None ->
  let r := handleGoogleOAuthCallback env searchParams w in
  fst r = Returned (CallbackFailed state_mismatch_error)
  /\ (exists msg, trace (snd r) = (trace w ++ [ConsoleError msg])%list)
  /\ List.filter is_provider_call (trace (snd r)) = List.filter is_provider_call (trace w)
  /\ users (snd r) = users w
  /\ sessions (snd r) = sessions w.
Proof.
  intros code state storedState Hbad r.
  assert (Hguard : callback_validated searchParams w = false).
  { unfold callback_validated. apply negb_false_iff.
    fold code state storedState.
    destruct Hbad as [Hb|[Hb|[Hb|Hb]]].
    - rewrite Hb. simpl. now rewrite orb_true_r.
    - rewrite Hb. simpl. now rewrite !orb_true_r.
    - rewrite (bool_decide_eq_false_2 _ Hb). simpl. now rewrite !orb_true_r.
    - rewrite Hb. reflexivity. }
  subst r. rewrite (callback_guard_rejects _ _ Hguard). simpl.
  rewrite List.filter_app. simpl. rewrite app_nil_r.
  repeat split; eauto.
Qed.

(** C2, amended: the two transient cookies are deleted on every callback
    that passes validation, whatever happens afterwards (provider
    failure, missing email, database error, session failure or success);
    a callback that fails validation leaves the cookie store exactly as
    it found it. *)
Theorem callback_transient_cookies env searchParams w :
  (forall sid, sc_name (createSessionCookie sid) <> "google_oauth_state") ->
  (forall sid, sc_name (createSessionCookie sid) <> "google_code_verifier") ->
  let w' := world_after (handleGoogleOAuthCallback env searchParams w) in
  if callback_validated searchParams w
  then cookieStore w' !! "google_oauth_state" = None
       /\ cookieStore w' !! "google_code_verifier" = None
  else cookieStore w' = cookieStore w.
Proof.
  intros Hstate Hverifier w'. subst w'. unfold world_after.
  destruct (callback_validated searchParams w) eqn:Hguard.
  2:{ now rewrite (callback_guard_rejects _ _ Hguard). }
  rewrite (callback_run_validated _ _ _ Hguard).
  assert (Hgone : cookieStore (consume_transient_cookies w) !! "google_oauth_state" = None
                  /\ cookieStore (consume_transient_cookies w) !! "google_code_verifier" = None).
  { simpl. rewrite lookup_delete_ne, !lookup_delete_eq by done. done. }
  revert Hgone. generalize (consume_transient_cookies w). intros w1 Hgone.
  unfold validateCallback. run_action.
  destruct (googleOAuth_validateCallback env _) as [g|]; simpl; [|exact Hgone].
  destruct (truthy (g_email g)); simpl; [|exact Hgone].
  match goal with
  | |- context [resolve_account ?e ?s ?n ?w0] =>
      destruct (resolve_account_frame e s n w0) as (res & w2 & Hrun & Hc & _)
  end.
  rewrite Hrun. simpl in Hc. destruct res as [uid|early]; simpl.
  2:{ now rewrite Hc. }
  destruct (establish_session_frame env uid w2) as (_ & _ & Hframe & Hout).
  destruct (establish_session env uid w2) as [o w3]. simpl in *.
  destruct Hout as [->|[e [= -> ->]]]; simpl.
  - rewrite !Hframe by assumption. now rewrite Hc.
  - now rewrite Hc.
Qed.

Lemma callback_run_profile env searchParams w g userEmail :
  callback_validated searchParams w = true ->
  googleOAuth_validateCallback env (default "" (searchParams_get "code" searchParams))
  = ProviderUser g ->
  g_email g = Some userEmail -> userEmail <> "" ->
  exists w1,
    users w1 = users w /\ sessions w1 = sessions w /\ nextUserId w1 = nextUserId w
    /\ handleGoogleOAuthCallback env searchParams w
       = match resolve_account userEmail (sub g) (g_name g) w1 with
         | (Returned (inl dbUserId), w2) =>
             match establish_session env dbUserId w2 with
             | (Returned a, w3) => (Returned a, w3)
             | (Thrown _, w3) =>
                 (Returned (CallbackFailed "Authentication failed."),
                  with_trace
                    (trace w3 ++ [ConsoleError "Error handling Google OAuth callback:"]) w3)
             end
         | (Returned (inr early), w2) => (Returned early, w2)
         | (Thrown _, w2) =>
             (Returned (CallbackFailed "Authentication failed."),
              with_trace
                (trace w2 ++ [ConsoleError "Error handling Google OAuth callback:"]) w2)
         end.
Proof.
  intros Hguard Hreply Hemail Hnonempty.
  rewrite (callback_run_validated _ _ _ Hguard).
  unfold validateCallback. run_action. rewrite Hreply. simpl.
  assert (Htruthy : truthy (g_email g) = true).
  { apply truthy_true. now exists userEmail. }
  rewrite Htruthy, Hemail. simpl.
  exists (with_trace
            (trace w ++ [ProviderValidateCallback
                           (default "" (searchParams_get "code" searchParams))])
            (consume_transient_cookies w)).
  split; [reflexivity|]. split; [reflexivity|]. split; [reflexivity|].
  destruct (resolve_account _ _ _ _) as [[[uid|early]|e] w2]; reflexivity.
Qed.

(** C7: on a callback that passed validation and got a profile with an
    email, the account is looked up by the provider subject alone, and no
    user row is written.  If a stored row has [provider_id] equal to the
    subject, the first such row is the user, whatever the profile email
    is: the callback can succeed only with that row's id and the only
    session row it can store is one for that id; when
    [auth.createSession] rejects it answers [Authentication failed.] and
    stores no session, when the call goes through with an unused session
    id it succeeds.  If no
    row has, the account the code sets out to create is not created:
    [auth.createUser] raises and the callback answers [database error],
    with no row and no session written, whether or not the profile email
    belongs to a stored account (nothing is linked by email). *)
Theorem callback_resolves_by_subject env searchParams w g userEmail :
  callback_validated searchParams w = true ->
  googleOAuth_validateCallback env (default "" (searchParams_get "code" searchParams))
  = ProviderUser g ->
  g_email g = Some userEmail -> userEmail <> "" ->
  let r := handleGoogleOAuthCallback env searchParams w in
  let session_id_unused :=
    existsb (fun s => String.eqb (sessionsTable.id s) (generateSessionId env)) (sessions w)
    = false in
  users (snd r) = users w
  /\ match List.find (fun u => eq_opt (usersTable.provider_id u) (sub g)) (users w) with
     | Some existing =>
         (forall uid, fst r = Returned (CallbackOk uid) -> uid = usersTable.id existing)
         /\ (sessions (snd r) = sessions w
             \/ sessions (snd r)
                = (sessions w
                   ++ [sessionsTable.mk (generateSessionId env) (usersTable.id existing)
                         (now env + sessionExpiresIn)])%list)
         /\ (auth_createSession_reply env = SessionRejects ->
             fst r = Returned (CallbackFailed "Authentication failed.")
             /\ sessions (snd r) = sessions w)
         /\ (auth_createSession_reply env = SessionStored -> session_id_unused ->
             fst r = Returned (CallbackOk (usersTable.id existing)))
     | None =>
         fst r = Returned (CallbackFailed "database error")
         /\ sessions (snd r) = sessions w
     end.
Proof.
  intros Hguard Hreply Hemail Hnonempty r session_id_unused. subst r session_id_unused.
  destruct (callback_run_profile _ _ _ _ _ Hguard Hreply Hemail Hnonempty)
    as (w1 & Hu1 & Hs1 & Hn1 & ->).
  rewrite <- Hu1, <- Hs1. clear Hu1 Hs1 Hn1 Hguard Hreply.
  destruct (List.find _ (users w1)) as [existing|] eqn:Hfind.
  - rewrite (resolve_account_existing _ _ _ _ _ Hfind).
    match goal with
    | |- context [establish_session env ?uid ?w0] =>
        destruct (establish_session_frame env uid w0) as (Hu & _ & _ & Hout);
        pose proof (establish_session_fresh env uid w0) as Hfresh;
        pose proof (establish_session_sessions env uid w0) as Hsessions;
        pose proof (establish_session_rejects env uid w0) as Hrejects
    end.
    simpl in Hfresh, Hsessions.
    destruct (establish_session env _ _) as [o w3]. simpl in *.
    split; [destruct o; exact Hu|]. split; [|split; [|split]].
    + intros uid. destruct Hout as [->|[e [= -> ->]]]; simpl; congruence.
    + destruct o; exact Hsessions.
    + intros Hreply'. specialize (Hrejects Hreply'). injection Hrejects as -> ->.
      simpl. auto.
    + intros Hstored Hunused.
      destruct Hfresh as (w' & [= -> ->] & _); [exact Hstored|exact Hunused| |reflexivity].
      eapply find_user_exists. exact Hfind.
  - rewrite (resolve_account_missing _ _ _ _ Hfind). simpl. auto.
Qed.

(** *** Email and password signin *)

Lemma with_password_spec (user : option User) :
  with_password user
  = match user with
    | Some u =>
        match usersTable.hashed_password u with
        | Some h => if String.eqb h "" then None else Some (u, h)
        | None => None
        end
    | None => None
    end.
Proof.
  destruct user as [u|]; [|reflexivity]. unfold with_password.
  destruct (usersTable.hashed_password u) as [h|]; [|reflexivity].
  simpl. destruct (String.eqb h ""); reflexivity.
Qed.

(** C9: a well-formed signin that fails authentication returns the same
    result, [{ success: false, error: { email: ['Invalid credentials'] } }],
    whether no user has the email, the user has a null hashed password, or
    the password does not match the stored hash; no cookie is written in
    any of the three cases. *)
Theorem signin_failures_indistinguishable env formData w email password :
  signinSchema formData = ParseOk (email, password) ->
  let user := List.find (fun u => String.eqb (usersTable.email u) email) (users w) in
  user = None
  \/ (exists u, user = Some u /\ usersTable.hashed_password u = None)
  \/ (exists u h, user = Some u /\ usersTable.hashed_password u = Some h
                  /\ bcrypt_compare password h = false) ->
  let r := signin env formData w in
  fst r = Returned (Failure [("email", ["Invalid credentials"])])
  /\ cookieStore (snd r) = cookieStore w.
Proof.
  intros Hparse user Hfail r. subst r. unfold signin. rewrite Hparse.
  run_action. rewrite head_take_filter, with_password_spec. fold user.
  destruct Hfail as [->|[(u & -> & ->)|(u & h & -> & -> & Hcmp)]]; simpl; auto.
  destruct (String.eqb h ""); simpl; auto.
  rewrite Hcmp. simpl. auto.
Qed.

(** C1, as the code has it: on every successful email and password signin
    the value written to the [session] cookie is the decimal rendering of
    the user's id.  It is the same on every run, whatever the clock and
    the random draws are; no session row is stored; and [parseInt] gives
    the user id back from it without any lookup. *)
Theorem signin_session_token_is_user_id env formData w email password u h :
  signinSchema formData = ParseOk (email, password) ->
  List.find (fun u => String.eqb (usersTable.email u) email) (users w) = Some u ->
  usersTable.hashed_password u = Some h -> h <> "" ->
  bcrypt_compare password h = true ->
  let w' := snd (signin env formData w) in
  value <$> cookieStore w' !! "session" = Some (toString (usersTable.id u))
  /\ sessions w' = sessions w
  /\ (forall env', value <$> cookieStore (snd (signin env' formData w)) !! "session"
                   = value <$> cookieStore w' !! "session")
  /\ (ids_int4 w -> parseInt (toString (usersTable.id u)) = Some (usersTable.id u)).
Proof.
  intros Hparse Hfind Hhash Hnonempty Hcmp w'. subst w'.
  assert (Hrun : forall e,
             value <$> cookieStore (snd (signin e formData w)) !! "session"
             = Some (toString (usersTable.id u))
             /\ sessions (snd (signin e formData w)) = sessions w).
  { intros e. unfold signin. rewrite Hparse.
    run_action. rewrite head_take_filter, with_password_spec, Hfind, Hhash.
    apply String.eqb_neq in Hnonempty. rewrite Hnonempty, Hcmp. simpl.
    rewrite lookup_insert_eq. auto. }
  destruct (Hrun env) as [Hcookie Hsessions].
  split; [exact Hcookie|]. split; [exact Hsessions|]. split.
  - intros env'. rewrite Hcookie. apply Hrun.
  - intros Hids. apply parseInt_toString.
    apply find_some in Hfind as [Hin _].
    unfold ids_int4 in Hids. rewrite List.Forall_forall in Hids. now apply Hids.
Qed.

(** *** Forgotten passwords *)

(** The run of [forgotPassword] on a well-formed address, by cases on the
    account lookup. *)
Lemma forgotPassword_run env formData w email :
  forgotPasswordSchema formData = ParseOk email ->
  exists events w',
    forgotPassword env formData w = (Returned (SuccessMessage generic_reset_message), w')
    /\ trace w' = (trace w ++ events)%list
    /\ users w' = users w
    /\ resetTokens w'
       = match List.find (fun u => String.eqb (usersTable.email u) email) (users w) with
         | Some user =>
             (List.filter
                (fun r => negb (passwordResetTokensTable.userId r =? usersTable.id user))
                (resetTokens w)
              ++ [passwordResetTokensTable.mk (uuidv4 env) (usersTable.id user)
                    (now env + 1 * 3600000)])%list
         | None => resetTokens w
         end
    /\ (forall user,
          List.find (fun u => String.eqb (usersTable.email u) email) (users w) = Some user ->
          truthy (EMAIL_FROM env) = true ->
          resend_emails_send env <> MailAccepted ->
          exists msg, In (ConsoleError msg) events).
Proof.
  intros Hparse. unfold forgotPassword. rewrite Hparse.
  run_action. rewrite head_take_filter.
  destruct (List.find _ (users w)) as [user|] eqn:Hfind; simpl.
  2:{ eexists _, _. split; [reflexivity|]. simpl. repeat split; auto. discriminate. }
  unfold user_exists. simpl.
  pose proof (find_user_exists _ _ _ Hfind) as Hexists. unfold user_exists in Hexists.
  rewrite Hexists. simpl.
  destruct (truthy (EMAIL_FROM env)); simpl.
  2:{ eexists _, _. split; [reflexivity|]. simpl. repeat split; auto. discriminate. }
  destruct (resend_emails_send env); simpl;
    (eexists _, _; split; [reflexivity|]; simpl; rewrite <- ?app_assoc; simpl;
     repeat split; auto; intros user' _ _ Hsend; try (now contradiction Hsend);
     eexists; apply in_cons, in_cons; left; reflexivity).
Qed.

(** C6: on a well-formed email address [forgotPassword] returns one and
    the same generic success result, whether or not an account has that
    address and whatever becomes of the outbound mail (accepted, refused,
    a thrown error, or no sender configured); when the mail is refused or
    the send throws, the failure is written to the console and the result
    is still that one. *)
Theorem forgotPassword_generic_success env formData w email :
  forgotPasswordSchema formData = ParseOk email ->
  let r := forgotPassword env formData w in
  fst r = Returned (SuccessMessage generic_reset_message)
  /\ (forall env' w', fst (forgotPassword env' formData w') = fst r)
  /\ (forall user,
        List.find (fun u => String.eqb (usersTable.email u) email) (users w) = Some user ->
        truthy (EMAIL_FROM env) = true ->
        resend_emails_send env <> MailAccepted ->
        exists events msg,
          trace (snd r) = (trace w ++ events)%list /\ In (ConsoleError msg) events).
Proof.
  intros Hparse r. subst r.
  destruct (forgotPassword_run env formData w email Hparse)
    as (events & w1 & Hrun & Htrace & _ & _ & Hlogged).
  rewrite Hrun. simpl. split; [reflexivity|]. split.
  - intros env' w'.
    destruct (forgotPassword_run env' formData w' email Hparse) as (? & ? & -> & _).
    reflexivity.
  - intros user Hfind Hsender Hsend.
    destruct (Hlogged user Hfind Hsender Hsend) as [msg Hin]. eauto.
Qed.

(** *** The current user *)

Lemma find_id_none (n : Z) (l : list User) :
  List.find (fun u => usersTable.id u =? n) l = None
  <-> forall u, In u l -> usersTable.id u <> n.
Proof.
  split.
  - intros Hnone u Hin Heq.
    apply (find_none _ _ Hnone) in Hin. apply Z.eqb_neq in Hin. contradiction.
  - intros Hall. induction l as [|x l IH]; simpl; [reflexivity|].
    destruct (usersTable.id x =? n) eqn:Hx.
    + apply Z.eqb_eq in Hx. exfalso. apply (Hall x); [now left | exact Hx].
    + apply IH. intros u Hin. apply Hall. now right.
Qed.

(** What [getCurrentUser] returns, as a function of the cookie and of the
    users table alone. *)
Lemma getCurrentUser_run w :
  fst (getCurrentUser w)
  = Returned
      match value <$> cookieStore w !! "session" with
      | Some v =>
          match parseInt v with
          | Some n => if int4 n then List.find (fun u => usersTable.id u =? n) (users w)
                      else None
          | None => None
          end
      | None => None
      end.
Proof.
  unfold getCurrentUser. run_action.
  destruct (value <$> cookieStore w !! "session") as [v|]; simpl; [|reflexivity].
  destruct (String.eqb v "") eqn:Hv; simpl.
  { apply String.eqb_eq in Hv. subst v. reflexivity. }
  destruct (parseInt v) as [n|]; simpl; [|reflexivity].
  destruct (int4 n); simpl; [|reflexivity].
  rewrite head_take_filter.
  destruct (List.find _ (users w)); reflexivity.
Qed.

(** C10: [getCurrentUser] reads the [session] cookie and the users table
    and nothing else: sessions, reset tokens and the clock have no part in
    its answer.  It always returns; it returns null iff the cookie is
    absent, its value does not parse to an integer, or no user row has the
    parsed id; and whenever the value parses to the id of a stored user it
    returns that user's row. *)
Theorem getCurrentUser_trusts_cookie w :
  ids_int4 w ->
  let cookie := value <$> cookieStore w !! "session" in
  let r := getCurrentUser w in
  (exists result, fst r = Returned result)
  /\ (fst r = Returned None
      <-> cookie = None
          \/ (exists v, cookie = Some v /\ parseInt v = None)
          \/ (exists v n, cookie = Some v /\ parseInt v = Some n
                          /\ forall u, In u (users w) -> usersTable.id u <> n))
  /\ (forall v n u,
        cookie = Some v -> parseInt v = Some n ->
        List.find (fun u => usersTable.id u =? n) (users w) = Some u ->
        fst r = Returned (Some u))
  /\ (forall ss ts,
        fst (getCurrentUser (with_sessions ss (with_resetTokens ts w))) = fst r)
  /\ sessions (snd r) = sessions w.
Proof.
  intros Hids cookie r. subst r.
  assert (Hrange : forall n u, List.find (fun u => usersTable.id u =? n) (users w) = Some u ->
                               int4 n = true).
  { intros n u Hfind. apply find_some in Hfind as [Hin Heq].
    apply Z.eqb_eq in Heq. subst n.
    unfold ids_int4 in Hids. rewrite List.Forall_forall in Hids. now apply Hids. }
  split; [|split; [|split; [|split]]].
  - rewrite getCurrentUser_run. eauto.
  - rewrite getCurrentUser_run. fold cookie.
    destruct cookie as [v|]; [|split; auto].
    destruct (parseInt v) as [n|] eqn:Hparse.
    + destruct (List.find (fun u => usersTable.id u =? n) (users w)) as [u|] eqn:Hfind.
      * rewrite (Hrange _ _ Hfind). split; [discriminate|].
        intros [[=]|[(v' & [= <-] & Hp)|(v' & n' & [= <-] & Hp & Hno)]]; [congruence|].
        assert (n' = n) by congruence. subst n'.
        apply find_id_none in Hno. congruence.
      * split.
        -- intros _. right. right. exists v, n. repeat split; auto.
           now apply find_id_none.
        -- intros _. destruct (int4 n); reflexivity.
    + split; [|reflexivity]. intros _. right. left. eauto.
  - intros v n u Hcookie Hparse Hfind. rewrite getCurrentUser_run. fold cookie.
    rewrite Hcookie, Hparse, (Hrange _ _ Hfind), Hfind. reflexivity.
  - intros ss ts. rewrite !getCurrentUser_run. reflexivity.
  - unfold getCurrentUser. run_action.
    destruct (value <$> cookieStore w !! "session") as [v|]; simpl; [|reflexivity].
    destruct (String.eqb v ""); simpl; [reflexivity|].
    destruct (parseInt v) as [n|]; simpl; [|reflexivity].
    destruct (int4 n); simpl; [|reflexivity].
    destruct (head _); reflexivity.
Qed.

(** *** Reset tokens *)

(** Every action but the two reset actions leaves the token table alone. *)
Lemma signup_resetTokens env formData w :
  resetTokens (snd (signup env formData w)) = resetTokens w.
Proof. unfold signup. run_action. break_goal; reflexivity. Qed.

Lemma signin_resetTokens env formData w :
  resetTokens (snd (signin env formData w)) = resetTokens w.
Proof. unfold signin. run_action. break_goal; reflexivity. Qed.

Lemma getCurrentUser_resetTokens w :
  resetTokens (snd (getCurrentUser w)) = resetTokens w.
Proof. unfold getCurrentUser. run_action. break_goal; reflexivity. Qed.

Lemma signInWithGoogle_resetTokens env w :
  resetTokens (snd (signInWithGoogle env w)) = resetTokens w.
Proof. unfold signInWithGoogle. run_action. break_goal; reflexivity. Qed.

Lemma handleGoogleOAuthCallback_resetTokens env searchParams w :
  resetTokens (snd (handleGoogleOAuthCallback env searchParams w)) = resetTokens w.
Proof.
  unfold handleGoogleOAuthCallback, validateCallback, resolve_account, establish_session,
    auth_createUser, auth_createSession.
  run_action. break_goal; reflexivity.
Qed.

(** The run of [resetPassword] on a well-formed form. *)
Lemma resetPassword_run env formData w token password :
  resetPasswordSchema formData = ParseOk (token, password) ->
  resetPassword env formData w
  = match List.find (token_valid_at token (now env)) (resetTokens w) with
    | None => (Returned (Failure [("_form", ["Invalid or expired reset token."])]), w)
    | Some validToken =>
        if int4 (passwordResetTokensTable.userId validToken)
        then
          match List.find (fun u => usersTable.id u
                                    =? passwordResetTokensTable.userId validToken)
                  (users w) with
          | None =>
              (Returned (Failure [("_form", ["An unexpected error occurred."])]),
               with_trace
                 (trace w ++ [ConsoleError ("User not found for valid token: " +:+ token)]) w)
          | Some user =>
              (Returned (SuccessMessage "Your password has been successfully reset."),
               password_reset_world (bcrypt_hash (salt env) password) token user w)
          end
        else
          (Returned (Failure [("_form", ["An unexpected error occurred."])]),
           with_trace (trace w ++ [ConsoleError "Error during reset password process:"]) w)
    end.
Proof.
  intros Hparse. unfold resetPassword. rewrite Hparse.
  run_action. rewrite head_take_filter.
  destruct (List.find _ (resetTokens w)) as [validToken|]; simpl; [|reflexivity].
  destruct (int4 _); simpl; [|reflexivity].
  rewrite head_take_filter.
  destruct (List.find _ (users w)) as [user|]; reflexivity.
Qed.

Lemma resetPassword_resetTokens env formData w :
  resetTokens (snd (resetPassword env formData w)) = resetTokens w
  \/ exists token,
       resetTokens (snd (resetPassword env formData w))
       = List.filter (fun r => negb (String.eqb (passwordResetTokensTable.token r) token))
           (resetTokens w).
Proof.
  destruct (resetPasswordSchema formData) as [[token password]|fe] eqn:Hparse.
  - rewrite (resetPassword_run _ _ _ _ _ Hparse).
    destruct (List.find _ (resetTokens w)) as [validToken|]; [|now left].
    destruct (int4 _); [|now left].
    destruct (List.find _ (users w)) as [user|]; [|now left].
    right. exists token. reflexivity.
  - left. unfold resetPassword. rewrite Hparse. reflexivity.
Qed.

Lemma forgotPassword_resetTokens env formData w :
  resetTokens (snd (forgotPassword env formData w)) = resetTokens w
  \/ exists uid,
       resetTokens (snd (forgotPassword env formData w))
       = (List.filter (fun r => negb (passwordResetTokensTable.userId r =? uid))
            (resetTokens w)
          ++ [passwordResetTokensTable.mk (uuidv4 env) uid (now env + 1 * 3600000)])%list.
Proof.
  destruct (forgotPasswordSchema formData) as [email|fe] eqn:Hparse.
  - destruct (forgotPassword_run env formData w email Hparse)
      as (events & w' & -> & _ & _ & Htokens & _). simpl.
    rewrite Htokens. destruct (List.find _ (users w)) as [user|]; [|now left].
    right. now exists (usersTable.id user).
  - left. unfold forgotPassword. rewrite Hparse. reflexivity.
Qed.

(** The shape of the token table after one request: some rows are
    removed, and at most one row, carrying the token drawn on that run,
    is added for the user whose rows were removed. *)
Lemma serve_resetTokens env request w :
  (exists keep, resetTokens (serve env request w) = List.filter keep (resetTokens w))
  \/ exists uid,
       resetTokens (serve env request w)
       = (List.filter (fun r => negb (passwordResetTokensTable.userId r =? uid))
            (resetTokens w)
          ++ [passwordResetTokensTable.mk (uuidv4 env) uid (now env + 1 * 3600000)])%list.
Proof.
  pose proof (@filter_keep_all ResetToken) as Hsame.
  destruct request as [f|f| | |f|f| |q]; simpl; unfold world_after.
  - left. exists (fun _ => true). rewrite signup_resetTokens. apply Hsame.
  - left. exists (fun _ => true). rewrite signin_resetTokens. apply Hsame.
  - left. exists (fun _ => true). rewrite getCurrentUser_resetTokens. apply Hsame.
  - left. exists (fun _ => true). apply Hsame.
  - destruct (forgotPassword_resetTokens env f w) as [->|[uid ->]].
    + left. exists (fun _ => true). apply Hsame.
    + right. now exists uid.
  - left. destruct (resetPassword_resetTokens env f w) as [->|[token ->]].
    + exists (fun _ => true). apply Hsame.
    + eexists. reflexivity.
  - left. exists (fun _ => true). rewrite signInWithGoogle_resetTokens. apply Hsame.
  - left. exists (fun _ => true). rewrite handleGoogleOAuthCallback_resetTokens. apply Hsame.
Qed.

Lemma find_none_forall {A} (p : A -> bool) (l : list A) :
  List.find p l = None <-> forall x, In x l -> p x = false.
Proof.
  split; [apply find_none|].
  induction l as [|x l IH]; simpl; [reflexivity|]. intros Hall.
  rewrite (Hall x) by now left. apply IH. intros y Hy. apply Hall. now right.
Qed.

Lemma validate_resetToken_spec token now0 w :
  validate_resetToken token now0 w <> None
  <-> exists row, In row (resetTokens w)
                  /\ passwordResetTokensTable.token row = token
                  /\ now0 < passwordResetTokensTable.expiresAt row.
Proof.
  unfold validate_resetToken.
  destruct (List.find _ (resetTokens w)) as [row|] eqn:Hfind; simpl.
  - split; [intros _|discriminate].
    apply find_some in Hfind as [Hin Hvalid]. unfold token_valid_at in Hvalid.
    apply andb_true_iff in Hvalid as [Htok Hexp].
    apply String.eqb_eq in Htok. apply Z.ltb_lt in Hexp. eauto.
  - split; [congruence|]. intros (row & Hin & Htok & Hexp). exfalso.
    apply (find_none _ _ Hfind) in Hin. unfold token_valid_at in Hin.
    apply String.eqb_eq in Htok. apply Z.ltb_lt in Hexp.
    rewrite Htok, Hexp in Hin. discriminate.
Qed.

Lemma token_absent_validate token w :
  token_absent token w -> forall now0, validate_resetToken token now0 w = None.
Proof.
  intros Habsent now0. unfold validate_resetToken.
  replace (List.find _ _) with (@None ResetToken); [reflexivity|].
  symmetry. apply find_none_forall. intros row Hin.
  unfold token_valid_at. apply Habsent in Hin.
  apply String.eqb_neq in Hin. now rewrite Hin.
Qed.

Lemma token_absent_filter token keep w w' :
  resetTokens w' = List.filter keep (resetTokens w) ->
  token_absent token w -> token_absent token w'.
Proof.
  intros Heq Habsent row Hin. rewrite Heq in Hin.
  apply filter_In in Hin as [Hin _]. now apply Habsent.
Qed.

Lemma token_absent_step token w w' :
  step_avoiding token w w' -> token_absent token w -> token_absent token w'.
Proof.
  intros Hstep Habsent. destruct Hstep as [env request Hdraw|cs].
  - destruct (serve_resetTokens env request w) as [[keep Heq]|[uid Heq]].
    + eapply token_absent_filter; eauto.
    + intros row Hin. rewrite Heq in Hin. apply in_app_or in Hin as [Hin|Hin].
      * apply filter_In in Hin as [Hin _]. now apply Habsent.
      * destruct Hin as [<-|[]]. exact Hdraw.
  - exact Habsent.
Qed.

Lemma token_absent_reachable token w w' :
  reachable (step_avoiding token) w w' -> token_absent token w -> token_absent token w'.
Proof.
  induction 1 as [|w1 w2 Hreach IH Hstep]; intros Habsent; [exact Habsent|].
  eapply token_absent_step; eauto.
Qed.

Lemma password_reset_world_absent hashedPassword token user w :
  token_absent token (password_reset_world hashedPassword token user w).
Proof.
  intros row Hin. simpl in Hin. apply filter_In in Hin as [_ Hkeep].
  apply negb_true_iff, String.eqb_neq in Hkeep. exact Hkeep.
Qed.

(** The owner of a valid token is a stored user whenever the foreign key
    and the id range hold. *)
Lemma valid_token_owner token now0 w row :
  tokens_owned w -> ids_int4 w ->
  List.find (token_valid_at token now0) (resetTokens w) = Some row ->
  int4 (passwordResetTokensTable.userId row) = true
  /\ exists user,
       List.find (fun u => usersTable.id u =? passwordResetTokensTable.userId row) (users w)
       = Some user
       /\ In user (users w)
       /\ usersTable.id user = passwordResetTokensTable.userId row.
Proof.
  intros Howned Hids Hfind. apply find_some in Hfind as [Hin _].
  unfold tokens_owned in Howned. rewrite List.Forall_forall in Howned.
  specialize (Howned row Hin). unfold user_exists in Howned.
  destruct (List.find (fun u => usersTable.id u =? passwordResetTokensTable.userId row)
              (users w)) as [user|] eqn:Huser.
  - apply find_some in Huser as [Huin Hid]. apply Z.eqb_eq in Hid.
    unfold ids_int4 in Hids. rewrite List.Forall_forall in Hids.
    split; [rewrite <- Hid; now apply Hids|]. exists user. auto.
  - apply find_none_existsb in Huser. congruence.
Qed.

(** C4: a reset token is valid at a time iff some stored row carries it
    and is unexpired then (a consumed row is no longer stored), and
    [resetPassword] answers [Invalid or expired reset token.] exactly when
    it is not valid.  With a valid token on a well-formed form it
    succeeds, replaces the owner's hashed password by the hash of the new
    one and deletes every row carrying the token in the same run.  After a
    successful reset the token stays invalid in every later state: each
    re-submission of it is refused with [Invalid or expired reset token.],
    whatever requests came in between, as long as no later draw of
    [uuidv4] repeats the token. *)
Theorem reset_token_single_use env formData w token password :
  resetPasswordSchema formData = ParseOk (token, password) ->
  let r := resetPassword env formData w in
  let refused := Returned (Failure [("_form", ["Invalid or expired reset token."])]) in
  (validate_resetToken token (now env) w <> None
   <-> exists row, In row (resetTokens w)
                   /\ passwordResetTokensTable.token row = token
                   /\ now env < passwordResetTokensTable.expiresAt row)
  /\ (fst r = refused <-> validate_resetToken token (now env) w = None)
  /\ (tokens_owned w -> ids_int4 w ->
      forall uid, validate_resetToken token (now env) w = Some uid ->
        fst r = Returned (SuccessMessage "Your password has been successfully reset.")
        /\ (exists user, In user (users w) /\ usersTable.id user = uid
              /\ snd r = password_reset_world (bcrypt_hash (salt env) password) token user w)
        /\ (exists user', In user' (users (snd r)) /\ usersTable.id user' = uid)
        /\ (forall user', In user' (users (snd r)) -> usersTable.id user' = uid ->
              usersTable.hashed_password user' = Some (bcrypt_hash (salt env) password))
        /\ token_absent token (snd r))
  /\ (forall msg, fst r = Returned (SuccessMessage msg) ->
      forall w2, reachable (step_avoiding token) (snd r) w2 ->
        (forall now2, validate_resetToken token now2 w2 = None)
        /\ forall env2 formData2 password2,
             resetPasswordSchema formData2 = ParseOk (token, password2) ->
             fst (resetPassword env2 formData2 w2) = refused).
Proof.
  intros Hparse r refused. subst r refused.
  split; [apply validate_resetToken_spec|].
  rewrite (resetPassword_run _ _ _ _ _ Hparse). unfold validate_resetToken.
  destruct (List.find (token_valid_at token (now env)) (resetTokens w))
    as [row|] eqn:Hfind; simpl.
  - split; [|split].
    + split; [|discriminate].
      destruct (int4 _); [destruct (List.find _ (users w))|]; simpl; discriminate.
    + intros Howned Hids uid [= <-].
      destruct (valid_token_owner _ _ _ _ Howned Hids Hfind)
        as (Hint & user & Huser & Hin & Hid).
      rewrite Hint, Huser. simpl.
      split; [reflexivity|]. split; [eauto|]. split; [|split].
      * exists (usersTable.mk (usersTable.id user) (usersTable.name user)
                  (usersTable.email user) (Some (bcrypt_hash (salt env) password))
                  (usersTable.email_verified user) (usersTable.provider user)
                  (usersTable.provider_id user)).
        split; [|exact Hid]. apply in_map_iff. exists user.
        rewrite Z.eqb_refl. auto.
      * intros user' Hin' Hid'. apply in_map_iff in Hin' as (u0 & Hmap & _).
        destruct (usersTable.id u0 =? usersTable.id user) eqn:Hsame; subst user'.
        -- reflexivity.
        -- apply Z.eqb_neq in Hsame. congruence.
      * apply password_reset_world_absent.
    + intros msg Hsuccess w2 Hreach.
      assert (Habsent : token_absent token w2).
      { apply (token_absent_reachable _ _ _ Hreach).
        destruct (int4 _); [destruct (List.find _ (users w))|]; simpl in *;
          try discriminate. apply password_reset_world_absent. }
      split; [now apply token_absent_validate|].
      intros env2 formData2 password2 Hparse2.
      rewrite (resetPassword_run _ _ _ _ _ Hparse2).
      pose proof (token_absent_validate _ _ Habsent (now env2)) as Hnone.
      unfold validate_resetToken in Hnone.
      destruct (List.find _ (resetTokens w2)); [discriminate|reflexivity].
  - split; [tauto|]. split; [discriminate|]. intros msg [=].
Qed.

(** *** One reset token per user *)



Lemma one_row_per_user_step w w' :
  step w w' -> one_row_per_user w -> one_row_per_user w'.
Proof.
  intros Hstep Hone i. unfold rows_of. destruct Hstep as [env request|cs]; [|apply Hone].
  destruct (serve_resetTokens env request w) as [[keep ->]|[uid ->]].
  - etransitivity; [apply length_filter_filter | apply Hone].
  - rewrite List.filter_app, length_app, filter_singleton. simpl.
    destruct (uid =? i) eqn:Hi.
    + apply Z.eqb_eq in Hi. subst uid.
      rewrite (filter_filter_negb_nil (fun r => passwordResetTokensTable.userId r =? i)).
      reflexivity.
    + simpl. rewrite Nat.add_0_r.
      etransitivity; [apply length_filter_filter | apply Hone].
Qed.






(** What issuing a token does to the table. *)
Lemma forgotPassword_issues env formData w email user :
  forgotPasswordSchema formData = ParseOk email ->
  List.find (fun u => String.eqb (usersTable.email u) email) (users w) = Some user ->
  resetTokens (snd (forgotPassword env formData w))
  = (List.filter (fun r => negb (passwordResetTokensTable.userId r =? usersTable.id user))
       (resetTokens w)
     ++ [passwordResetTokensTable.mk (uuidv4 env) (usersTable.id user)
           (now env + 1 * 3600000)])%list.
Proof.
  intros Hparse Hfind.
  destruct (forgotPassword_run env formData w email Hparse)
    as (events & w' & -> & _ & _ & Htokens & _).
  simpl. now rewrite Htokens, Hfind.
Qed.

(** Left alone with the store, the suspended [forgotPassword] is the
    action served in one step. *)
Lemma forgotPassword_async_alone env formData w :
  run_to_completion (forgotPassword_async env formData) w = forgotPassword env formData w.
Proof.
  unfold forgotPassword_async, forgotPassword, send_reset_mail, await, settle.
  destruct (forgotPasswordSchema formData) as [email|fe]; simpl; [|reflexivity].
  run_action.
  destruct (head (take 1 (List.filter _ (users w)))) as [user|]; simpl; [|reflexivity].
  destruct (user_exists (usersTable.id user) _); simpl; [|reflexivity].
  destruct (truthy (EMAIL_FROM env)); simpl; [|reflexivity].
  destruct (resend_emails_send env); reflexivity.
Qed.


(** *** The store invariants hold in every reachable state *)

Lemma users_shape_same w w' : users w' = users w -> users_shape w w'.
Proof. intros Heq. left. now rewrite Heq. Qed.

Lemma signup_users env formData w : users_shape w (snd (signup env formData w)).
Proof.
  unfold signup. run_action. break_goal; try (now left).
  right. eexists. split; [reflexivity|]. simpl.
  match goal with Hneg : negb (int4 _) = false |- _ => now apply negb_false_iff in Hneg end.
Qed.

Lemma signin_users env formData w : users (snd (signin env formData w)) = users w.
Proof. unfold signin. run_action. break_goal; reflexivity. Qed.

Lemma getCurrentUser_users w : users (snd (getCurrentUser w)) = users w.
Proof. unfold getCurrentUser. run_action. break_goal; reflexivity. Qed.

Lemma signInWithGoogle_users env w : users (snd (signInWithGoogle env w)) = users w.
Proof. unfold signInWithGoogle. run_action. break_goal; reflexivity. Qed.

Lemma forgotPassword_users env formData w :
  users (snd (forgotPassword env formData w)) = users w.
Proof.
  destruct (forgotPasswordSchema formData) as [email|fe] eqn:Hparse.
  - destruct (forgotPassword_run env formData w email Hparse)
      as (events & w' & -> & _ & Hu & _). exact Hu.
  - unfold forgotPassword. rewrite Hparse. reflexivity.
Qed.

Lemma resetPassword_users env formData w :
  map usersTable.id (users (snd (resetPassword env formData w)))
  = map usersTable.id (users w).
Proof.
  destruct (resetPasswordSchema formData) as [[token password]|fe] eqn:Hparse.
  - rewrite (resetPassword_run _ _ _ _ _ Hparse).
    destruct (List.find _ (resetTokens w)) as [validToken|]; [|reflexivity].
    destruct (int4 _); [|reflexivity].
    destruct (List.find _ (users w)) as [user|]; [|reflexivity].
    simpl. rewrite map_map. apply map_ext. intros u.
    destruct (usersTable.id u =? usersTable.id user); reflexivity.
  - unfold resetPassword. rewrite Hparse. reflexivity.
Qed.

Lemma handleGoogleOAuthCallback_users env searchParams w :
  users_shape w (snd (handleGoogleOAuthCallback env searchParams w)).
Proof.
  unfold handleGoogleOAuthCallback, validateCallback, resolve_account, establish_session,
    auth_createUser, auth_createSession.
  run_action. break_goal; try (now left).
  all: right; eexists; (split; [reflexivity|]); simpl;
    match goal with Hneg : negb (int4 _) = false |- _ => now apply negb_false_iff in Hneg end.
Qed.

Lemma serve_users env request w : users_shape w (serve env request w).
Proof.
  destruct request as [f|f| | |f|f| |q]; simpl; unfold world_after.
  - apply signup_users.
  - apply users_shape_same, signin_users.
  - apply users_shape_same, getCurrentUser_users.
  - now left.
  - apply users_shape_same, forgotPassword_users.
  - left. apply resetPassword_users.
  - apply users_shape_same, signInWithGoogle_users.
  - apply handleGoogleOAuthCallback_users.
Qed.

Lemma user_exists_ids i w :
  user_exists i w = true <-> In i (map usersTable.id (users w)).
Proof.
  unfold user_exists. rewrite existsb_exists, in_map_iff. split.
  - intros (u & Hin & Heq). apply Z.eqb_eq in Heq. eauto.
  - intros (u & Heq & Hin). exists u. split; [exact Hin | now apply Z.eqb_eq].
Qed.

Lemma user_exists_shape i w w' :
  users_shape w w' -> user_exists i w = true -> user_exists i w' = true.
Proof.
  rewrite !user_exists_ids. intros [->|(u & -> & _)]; [auto|].
  rewrite map_app, in_app_iff. auto.
Qed.

Lemma ids_int4_step w w' : step w w' -> ids_int4 w -> ids_int4 w'.
Proof.
  intros [env request|cs]; [|auto]. unfold ids_int4.
  rewrite !List.Forall_forall. intros Hids u Hin.
  destruct (serve_users env request w) as [Hsame|(u' & Heq & Hint)].
  - assert (Hid : In (usersTable.id u) (map usersTable.id (users w)))
      by (rewrite <- Hsame; now apply in_map).
    apply in_map_iff in Hid as (u0 & <- & Hin0). now apply Hids.
  - rewrite Heq in Hin. apply in_app_or in Hin. destruct Hin as [Hin|[<-|[]]]; auto.
Qed.

Lemma tokens_owned_step w w' : step w w' -> tokens_owned w -> tokens_owned w'.
Proof.
  intros [env request|cs]; [|auto]. unfold tokens_owned.
  rewrite !List.Forall_forall. intros Howned row Hin.
  assert (Hold : forall r, In r (resetTokens w) ->
                   user_exists (passwordResetTokensTable.userId r) (serve env request w)
                   = true).
  { intros r Hr. eapply user_exists_shape; [apply serve_users | now apply Howned]. }
  destruct request as [f|f| | |f|f| |q]; simpl in Hin; unfold world_after in Hin.
  - rewrite signup_resetTokens in Hin. auto.
  - rewrite signin_resetTokens in Hin. auto.
  - rewrite getCurrentUser_resetTokens in Hin. auto.
  - auto.
  - destruct (forgotPasswordSchema f) as [email|fe] eqn:Hparse.
    + destruct (forgotPassword_run env f w email Hparse)
        as (events & w1 & Hrun & _ & Hu & Htokens & _).
      simpl. unfold world_after. rewrite Hrun in *. simpl in *. rewrite Htokens in Hin.
      destruct (List.find _ (users w)) as [user|] eqn:Hfind.
      * apply in_app_or in Hin. destruct Hin as [Hin|[<-|[]]].
        -- apply filter_In in Hin as [Hin _]. specialize (Hold _ Hin).
           simpl in Hold. unfold world_after in Hold. now rewrite Hrun in Hold.
        -- simpl. apply user_exists_ids. rewrite Hu.
           apply find_some in Hfind as [Huin _]. now apply in_map.
      * specialize (Hold _ Hin). simpl in Hold. unfold world_after in Hold.
        now rewrite Hrun in Hold.
    + unfold forgotPassword in Hin. rewrite Hparse in Hin. simpl in Hin. auto.
  - destruct (resetPassword_resetTokens env f w) as [Heq|[token Heq]];
      rewrite Heq in Hin; [auto|].
    apply filter_In in Hin as [Hin _]. auto.
  - rewrite signInWithGoogle_resetTokens in Hin. auto.
  - rewrite handleGoogleOAuthCallback_resetTokens in Hin. auto.
Qed.

(** From the empty store on, every state meets the foreign key of the
    token table, the range of the id column, and the one-row-per-user
    rule. *)
Lemma reachable_store_invariants w :
  reachable step initial_world w ->
  tokens_owned w /\ ids_int4 w /\ one_row_per_user w.
Proof.
  induction 1 as [|w1 w2 Hreach (Ho & Hi & Hr) Hstep].
  - split; [constructor|]. split; [constructor|]. intros i. apply Nat.le_0_l.
  - repeat split;
      [eapply tokens_owned_step | eapply ids_int4_step | eapply one_row_per_user_step];
      eauto.
Qed.
End Properties.

(** * Further properties of the code *)

Section MoreProperties.
Context `{!Zod, !Bcrypt, !Lucia}.

(** ** Signup *)

Lemma signup_run_taken env formData w name email password existing :
  signupSchema formData = ParseOk (name, email, password) ->
  List.find (fun u => String.eqb (usersTable.email u) email) (users w) = Some existing ->
  signup env formData w = (Returned (Failure [("email", ["Email already exists"])]), w).
Proof.
  intros Hparse Htaken. unfold signup. rewrite Hparse. run_action.
  rewrite take_filter_find, Htaken. reflexivity.
Qed.




(** X2: a signup whose email some stored user already has, whatever that
    user's provider, is refused with [Email already exists] on the email
    field, and nothing at all changes: no row, no console line, and the id
    sequence does not advance. *)
Theorem signup_duplicate_email env formData w name email password existing :
  signupSchema formData = ParseOk (name, email, password) ->
  List.find (fun u => String.eqb (usersTable.email u) email) (users w) = Some existing ->
  signup env formData w = (Returned (Failure [("email", ["Email already exists"])]), w).
Proof.
  intros Hparse Htaken. exact (signup_run_taken _ _ _ _ _ _ _ Hparse Htaken).
Qed.

(** ** Signin, the current user, signout *)

Lemma signin_run env formData w email password :
  signinSchema formData = ParseOk (email, password) ->
  signin env formData w
  = match with_password
            (List.find (fun u => String.eqb (usersTable.email u) email) (users w)) with
    | None =>
        (Returned (Failure [("email", ["Invalid credentials"])]),
         with_trace
           (trace w ++ [ConsoleError
                          ("Signin failed: User not found or password missing for email: "
                           +:+ email)]) w)
    | Some (user, hashed_password) =>
        if bcrypt_compare password hashed_password
        then
          (Returned (Failure [("_form", ["An unexpected error occurred during signin."])]),
           with_trace
             (trace w ++ [ConsoleLog ("User signed in successfully: "
                                      +:+ toString (usersTable.id user));
                          ConsoleError "Error during signin action:"])
             (with_cookieStore
                (<["session" :=
                     {| value := toString (usersTable.id user); httpOnly := true;
                        secure := production env; maxAge := Some (60 * 60 * 24 * 7);
                        expires := None; path := Some "/"; sameSite := Some "strict" |}]>
                   (cookieStore w)) w))
        else
          (Returned (Failure [("email", ["Invalid credentials"])]),
           with_trace
             (trace w ++ [ConsoleError ("Signin failed: Password mismatch for email: "
                                        +:+ email)]) w)
    end.
Proof.
  intros Hparse. unfold signin. rewrite Hparse. run_action.
  rewrite head_take_filter.
  destruct (with_password _) as [[user hashed_password]|]; simpl; [|reflexivity].
  destruct (bcrypt_compare password hashed_password); simpl; [|reflexivity].
  rewrite <- app_assoc. reflexivity.
Qed.

(** X3: [signin] never returns a success result.  Every exit is a failure
    record: field errors for a malformed form, [Invalid credentials] for
    bad credentials, and for good credentials the [_form] error of its own
    [catch], which intercepts the redirect raised inside the [try] block
    after the cookie was written and the success line logged. *)
Theorem signin_never_returns_success env formData w :
  let r := signin env formData w in
  (exists fe, fst r = Returned (Failure fe))
  /\ (forall email password user h,
        signinSchema formData = ParseOk (email, password) ->
        List.find (fun u => String.eqb (usersTable.email u) email) (users w) = Some user ->
        usersTable.hashed_password user = Some h -> h <> "" ->
        bcrypt_compare password h = true ->
        fst r = Returned (Failure [("_form", ["An unexpected error occurred during signin."])])
        /\ is_Some (cookieStore (snd r) !! "session")
        /\ In (ConsoleLog ("User signed in successfully: " +:+ toString (usersTable.id user)))
              (trace (snd r))).
Proof.
  intros r. subst r. split.
  - destruct (signinSchema formData) as [[email password]|fe] eqn:Hparse.
    + rewrite (signin_run _ _ _ _ _ Hparse).
      destruct (with_password _) as [[user h]|]; [|eauto].
      destruct (bcrypt_compare password h); eauto.
    + unfold signin. rewrite Hparse. run_action. eauto.
  - intros email password user h Hparse Hfind Hhash Hnonempty Hcmp.
    rewrite (signin_run _ _ _ _ _ Hparse), with_password_spec, Hfind, Hhash.
    apply String.eqb_neq in Hnonempty. rewrite Hnonempty, Hcmp. simpl.
    split; [reflexivity|]. split.
    + rewrite lookup_insert_eq. eauto.
    + apply in_or_app. right. now left.
Qed.

(** X4: the cookie [signin] writes is the one [getCurrentUser] accepts:
    right after a signin with good credentials, [getCurrentUser] returns
    the row of the user who signed in. *)
Theorem signin_then_getCurrentUser env formData w email password user h :
  signinSchema formData = ParseOk (email, password) ->
  List.find (fun u => String.eqb (usersTable.email u) email) (users w) = Some user ->
  usersTable.hashed_password user = Some h -> h <> "" ->
  bcrypt_compare password h = true ->
  ids_int4 w ->
  List.find (fun u => usersTable.id u =? usersTable.id user) (users w) = Some user ->
  fst (getCurrentUser (snd (signin env formData w))) = Returned (Some user).
Proof.
  intros Hparse Hfind Hhash Hnonempty Hcmp Hids Hkey.
  assert (Hint : int4 (usersTable.id user) = true).
  { apply find_some in Hfind as [Hin _]. unfold ids_int4 in Hids.
    rewrite List.Forall_forall in Hids. now apply Hids. }
  rewrite getCurrentUser_run.
  rewrite (signin_run _ _ _ _ _ Hparse), with_password_spec, Hfind, Hhash.
  apply String.eqb_neq in Hnonempty. rewrite Hnonempty, Hcmp. simpl.
  rewrite lookup_insert_eq. simpl.
  rewrite (parseInt_toString _ Hint), Hint, Hkey. reflexivity.
Qed.

(** X5: [signout] deletes the [session] cookie and nothing else: every
    other cookie, and the users, sessions and reset-token tables, stay as
    they were (no stored session is revoked); after it [getCurrentUser]
    returns null; and signing out twice is signing out once. *)
Theorem signout_clears_session_cookie w :
  let w' := snd (signout w) in
  fst (signout w) = Returned SuccessPlain
  /\ cookieStore w' !! "session" = None
  /\ (forall n, n <> "session" -> cookieStore w' !! n = cookieStore w !! n)
  /\ users w' = users w /\ sessions w' = sessions w /\ resetTokens w' = resetTokens w
  /\ fst (getCurrentUser w') = Returned None
  /\ snd (signout w') = w'.
Proof.
  unfold signout. run_action.
  split; [reflexivity|]. split; [apply lookup_delete_eq|]. split.
  { intros n Hn. now apply lookup_delete_ne. }
  repeat (split; [reflexivity|]). split.
  - rewrite getCurrentUser_run. simpl. now rewrite lookup_delete_eq.
  - unfold with_cookieStore. simpl. f_equal. apply delete_delete_eq.
Qed.

(** ** Reset tokens, end to end *)

(** The table right after a token is issued holds it as its last row, and
    no other row carries it if it was fresh. *)
Lemma issued_token_found env formData w email user now0 :
  forgotPasswordSchema formData = ParseOk email ->
  List.find (fun u => String.eqb (usersTable.email u) email) (users w) = Some user ->
  token_absent (uuidv4 env) w ->
  List.find (token_valid_at (uuidv4 env) now0)
    (resetTokens (snd (forgotPassword env formData w)))
  = if now0 <? now env + 1 * 3600000
    then Some (passwordResetTokensTable.mk (uuidv4 env) (usersTable.id user)
                 (now env + 1 * 3600000))
    else None.
Proof.
  intros Hparse Hfind Hfresh.
  rewrite (forgotPassword_issues _ _ _ _ _ Hparse Hfind), find_app.
  replace (List.find _ (List.filter _ _)) with (@None ResetToken).
  - simpl. unfold token_valid_at. simpl. rewrite String.eqb_refl. simpl.
    destruct (now0 <? now env + 1 * 3600000); reflexivity.
  - symmetry. apply find_none_forall. intros row Hin.
    apply filter_In in Hin as [Hin _]. apply Hfresh in Hin.
    unfold token_valid_at. apply String.eqb_neq in Hin. now rewrite Hin.
Qed.

(** X6: the reset link works for one hour and not a millisecond longer.
    After [forgotPassword] issued a fresh token to a stored user at time
    [t0], a well-formed [resetPassword] carrying that token succeeds at
    every time before [t0] + 3600000 ms and stores the hash of the new
    password in that user's row; at [t0] + 3600000 ms and later it is
    refused with [Invalid or expired reset token.] and changes nothing. *)
Theorem reset_link_lifetime env1 env2 formData1 formData2 w email user password :
  forgotPasswordSchema formData1 = ParseOk email ->
  List.find (fun u => String.eqb (usersTable.email u) email) (users w) = Some user ->
  token_absent (uuidv4 env1) w ->
  ids_int4 w ->
  List.find (fun u => usersTable.id u =? usersTable.id user) (users w) = Some user ->
  resetPasswordSchema formData2 = ParseOk (uuidv4 env1, password) ->
  let w1 := snd (forgotPassword env1 formData1 w) in
  let r := resetPassword env2 formData2 w1 in
  (now env2 < now env1 + 1 * 3600000 ->
     fst r = Returned (SuccessMessage "Your password has been successfully reset.")
     /\ List.find (fun u => usersTable.id u =? usersTable.id user) (users (snd r))
        = Some (usersTable.mk (usersTable.id user) (usersTable.name user)
                  (usersTable.email user) (Some (bcrypt_hash (salt env2) password))
                  (usersTable.email_verified user) (usersTable.provider user)
                  (usersTable.provider_id user)))
  /\ (now env1 + 1 * 3600000 <= now env2 ->
        r = (Returned (Failure [("_form", ["Invalid or expired reset token."])]), w1)).
Proof.
  intros Hparse1 Hfind Hfresh Hids Hkey Hparse2 w1 r. subst r w1.
  assert (Hint : int4 (usersTable.id user) = true).
  { apply find_some in Hfind as [Hin _]. unfold ids_int4 in Hids.
    rewrite List.Forall_forall in Hids. now apply Hids. }
  rewrite (resetPassword_run _ _ _ _ _ Hparse2).
  rewrite (issued_token_found _ _ _ _ _ _ Hparse1 Hfind Hfresh).
  split.
  - intros Hearly. apply Z.ltb_lt in Hearly. rewrite Hearly. simpl.
    rewrite Hint, forgotPassword_users, Hkey. simpl. split; [reflexivity|].
    rewrite forgotPassword_users.
    rewrite (find_map_preserved (fun u => usersTable.id u =? usersTable.id user)).
    + rewrite Hkey. simpl. now rewrite Z.eqb_refl.
    + intros u. destruct (usersTable.id u =? usersTable.id user) eqn:Hu; simpl;
        rewrite ?Hu; reflexivity.
  - intros Hlate. apply Z.ltb_ge in Hlate. now rewrite Hlate.
Qed.

(** X7: a reset gives its owner a working password, whatever the account's
    provider.  After a successful [resetPassword] the owner, found by email
    as before, signs in with the new password: the session cookie carries
    the owner's id.  An account created through Google, which had no
    password, gets one this way. *)
Theorem reset_then_signin env env' formData formData' w token password row user :
  resetPasswordSchema formData = ParseOk (token, password) ->
  List.find (token_valid_at token (now env)) (resetTokens w) = Some row ->
  int4 (passwordResetTokensTable.userId row) = true ->
  List.find (fun u => usersTable.id u =? passwordResetTokensTable.userId row) (users w)
  = Some user ->
  List.find (fun u => String.eqb (usersTable.email u) (usersTable.email user)) (users w)
  = Some user ->
  signinSchema formData' = ParseOk (usersTable.email user, password) ->
  bcrypt_hash (salt env) password <> "" ->
  bcrypt_compare password (bcrypt_hash (salt env) password) = true ->
  let w1 := snd (resetPassword env formData w) in
  let w2 := snd (signin env' formData' w1) in
  usersTable.provider <$>
    List.find (fun u => String.eqb (usersTable.email u) (usersTable.email user)) (users w1)
  = Some (usersTable.provider user)
  /\ value <$> cookieStore w2 !! "session" = Some (toString (usersTable.id user)).
Proof.
  intros Hparse Htoken Hint Hkey Hmail Hparse' Hnonempty Hcmp w1 w2. subst w2 w1.
  assert (Hid : usersTable.id user = passwordResetTokensTable.userId row).
  { apply find_some in Hkey as [_ Heq]. now apply Z.eqb_eq in Heq. }
  assert (Hafter :
    List.find (fun u => String.eqb (usersTable.email u) (usersTable.email user))
      (users (snd (resetPassword env formData w)))
    = Some (usersTable.mk (usersTable.id user) (usersTable.name user)
              (usersTable.email user) (Some (bcrypt_hash (salt env) password))
              (usersTable.email_verified user) (usersTable.provider user)
              (usersTable.provider_id user))).
  { rewrite (resetPassword_run _ _ _ _ _ Hparse), Htoken, Hint, Hkey. simpl.
    rewrite (find_map_preserved
               (fun u => String.eqb (usersTable.email u) (usersTable.email user))).
    - rewrite Hmail. simpl. now rewrite Z.eqb_refl.
    - intros u. destruct (usersTable.id u =? usersTable.id user); reflexivity. }
  split; [now rewrite Hafter|].
  rewrite (signin_run _ _ _ _ _ Hparse'), with_password_spec, Hafter. simpl.
  apply String.eqb_neq in Hnonempty. rewrite Hnonempty, Hcmp. simpl.
  now rewrite lookup_insert_eq.
Qed.

(** X8: a reset form whose two passwords differ, everything else being in
    order, is refused with [Passwords don't match] on [confirmPassword]
    before the store is read: the token is not consumed and no password
    changes. *)
Theorem reset_mismatch_keeps_token env (formData : FormData) w token password confirmPassword :
  formData !! "token" = Some token -> zod_uuid token = true ->
  formData !! "password" = Some password -> min_length 8 password = true ->
  formData !! "confirmPassword" = Some confirmPassword ->
  min_length 8 confirmPassword = true ->
  password <> confirmPassword ->
  let r := resetPassword env formData w in
  fst r = Returned (Failure [("confirmPassword", ["Passwords don't match"])])
  /\ resetTokens (snd r) = resetTokens w
  /\ users (snd r) = users w.
Proof.
  intros Htoken Huuid Hpassword Hlen Hconfirm Hlen' Hdiffer r. subst r.
  assert (Hparse : resetPasswordSchema formData
                   = ParseError [("confirmPassword", ["Passwords don't match"])]).
  { unfold resetPasswordSchema, field_issues, fieldErrors_of.
    rewrite Htoken, Hpassword, Hconfirm.
    apply String.eqb_neq in Hdiffer. rewrite Hdiffer.
    rewrite !filter_cons_if, !filter_nil_eq. simpl.
    rewrite Huuid, Hlen, Hlen'. reflexivity. }
  unfold resetPassword. rewrite Hparse. run_action. auto.
Qed.

(** X9: [forgotPassword] hands the mailer at most one message, and exactly
    one when the address belongs to a stored user and a sender is
    configured: from that sender, to the address stored for the user, with
    the link [NEXT_PUBLIC_APP_URL/reset-password?token=] followed by the
    token just stored.  For an unknown address nothing is sent and nothing
    is stored; without a sender the token is stored but never mailed. *)
Theorem forgotPassword_mail env formData w email :
  forgotPasswordSchema formData = ParseOk email ->
  let w' := snd (forgotPassword env formData w) in
  let sent := List.filter is_mail_call (trace w') in
  match List.find (fun u => String.eqb (usersTable.email u) email) (users w) with
  | Some user =>
      In (passwordResetTokensTable.mk (uuidv4 env) (usersTable.id user)
            (now env + 1 * 3600000)) (resetTokens w')
      /\ sent
         = (List.filter is_mail_call (trace w)
            ++ if truthy (EMAIL_FROM env)
               then [MailSend (default "" (EMAIL_FROM env)) (usersTable.email user)
                       (interpolate (NEXT_PUBLIC_APP_URL env) +:+ "/reset-password?token="
                        +:+ uuidv4 env)]
               else [])%list
  | None =>
      sent = List.filter is_mail_call (trace w) /\ resetTokens w' = resetTokens w
  end.
Proof.
  intros Hparse w' sent. subst sent w'.
  unfold forgotPassword. rewrite Hparse. run_action. rewrite head_take_filter.
  destruct (List.find _ (users w)) as [user|] eqn:Hfind; simpl.
  2:{ rewrite List.filter_app. simpl. now rewrite app_nil_r. }
  pose proof (find_user_exists _ _ _ Hfind) as Hexists. unfold user_exists in Hexists.
  unfold user_exists. simpl. rewrite Hexists. simpl.
  destruct (truthy (EMAIL_FROM env)); simpl.
  - destruct (resend_emails_send env); simpl;
      (split; [apply in_or_app; right; now left|]);
      rewrite !List.filter_app; simpl; rewrite ?app_nil_r, <- ?app_assoc; reflexivity.
  - split; [apply in_or_app; right; now left|].
    rewrite List.filter_app. simpl. now rewrite !app_nil_r.
Qed.

(** ** The Google flow *)

(** The callback touches no cookie but the two transient ones and the one
    Lucia names. *)
Lemma callback_cookie_frame env searchParams w n :
  (forall sid, sc_name (createSessionCookie sid) <> n) ->
  cookieStore (snd (handleGoogleOAuthCallback env searchParams w)) !! n
  = if callback_validated searchParams w
    then cookieStore (consume_transient_cookies w) !! n
    else cookieStore w !! n.
Proof.
  intros Hname. destruct (callback_validated searchParams w) eqn:Hguard.
  2:{ now rewrite (callback_guard_rejects _ _ Hguard). }
  rewrite (callback_run_validated _ _ _ Hguard).
  generalize (consume_transient_cookies w). intros w1.
  unfold validateCallback. run_action.
  destruct (googleOAuth_validateCallback env _) as [g|]; simpl; [|reflexivity].
  destruct (truthy (g_email g)); simpl; [|reflexivity].
  match goal with
  | |- context [resolve_account ?e ?s ?u ?w0] =>
      destruct (resolve_account_frame e s u w0) as (res & w2 & Hrun & Hc & _)
  end.
  rewrite Hrun. simpl in Hc. destruct res as [uid|early]; simpl; [|now rewrite Hc].
  destruct (establish_session_frame env uid w2) as (_ & _ & Hframe & Hout).
  destruct (establish_session env uid w2) as [o w3]. simpl in *.
  destruct Hout as [->|[e [= -> ->]]]; simpl.
  - rewrite Hframe by assumption. now rewrite Hc.
  - now rewrite Hc.
Qed.

Lemma establish_session_returned env uid w a w3 :
  establish_session env uid w = (Returned a, w3) ->
  let cookie := createSessionCookie (generateSessionId env) in
  a = CallbackOk uid
  /\ sessions w3
     = (sessions w
        ++ [sessionsTable.mk (generateSessionId env) uid (now env + sessionExpiresIn)])%list
  /\ users w3 = users w
  /\ cookieStore w3
     = <[sc_name cookie :=
           {| value := sc_value cookie;
              httpOnly := httpOnly (sc_attributes cookie);
              secure := secure (sc_attributes cookie);
              maxAge := maxAge (sc_attributes cookie);
              expires := expires (sc_attributes cookie);
              path := path (sc_attributes cookie);
              sameSite := sameSite (sc_attributes cookie) |}]> (cookieStore w).
Proof.
  unfold establish_session, auth_createSession.
  destruct (auth_createSession_reply env); run_action; [|discriminate].
  destruct (existsb _ (sessions w)); simpl; [discriminate|].
  destruct (user_exists uid w); simpl; [|discriminate].
  intros [= <- <-]. simpl. auto.
Qed.

(** A callback that answers with a user id stored a session for it and
    wrote the cookie Lucia makes for that session. *)
Lemma callback_ok_session env searchParams w uid :
  fst (handleGoogleOAuthCallback env searchParams w) = Returned (CallbackOk uid) ->
  let cookie := createSessionCookie (generateSessionId env) in
  In (sessionsTable.mk (generateSessionId env) uid (now env + sessionExpiresIn))
     (sessions (snd (handleGoogleOAuthCallback env searchParams w)))
  /\ cookieStore (snd (handleGoogleOAuthCallback env searchParams w)) !! sc_name cookie
     = Some {| value := sc_value cookie;
               httpOnly := httpOnly (sc_attributes cookie);
               secure := secure (sc_attributes cookie);
               maxAge := maxAge (sc_attributes cookie);
               expires := expires (sc_attributes cookie);
               path := path (sc_attributes cookie);
               sameSite := sameSite (sc_attributes cookie) |}.
Proof.
  destruct (callback_validated searchParams w) eqn:Hguard.
  2:{ rewrite (callback_guard_rejects _ _ Hguard). discriminate. }
  rewrite (callback_run_validated _ _ _ Hguard).
  generalize (consume_transient_cookies w). intros w1.
  unfold validateCallback. run_action.
  destruct (googleOAuth_validateCallback env _) as [g|]; simpl; [|discriminate].
  destruct (truthy (g_email g)); simpl; [|discriminate].
  match goal with
  | |- context [resolve_account ?e ?s ?u ?w0] =>
      destruct (List.find (fun x => eq_opt (usersTable.provider_id x) s) (users w0))
        as [existing|] eqn:Hfind;
      [rewrite (resolve_account_existing e s u w0 existing Hfind)
      |rewrite (resolve_account_missing e s u w0 Hfind)]
  end; simpl; [|discriminate].
  destruct (establish_session env _ _) as [[a|e] w3] eqn:Hsession; simpl; [|discriminate].
  apply establish_session_returned in Hsession as (-> & Hs & _ & Hc).
  intros [= <-]. rewrite Hs, Hc. split.
  - apply in_or_app. right. now left.
  - apply lookup_insert_eq.
Qed.

(** X10: when the provider refuses the code, or answers with a profile
    without an email, a validated callback fails with its own message,
    having asked the provider exactly once with the query's code; no user
    and no session is written in either case. *)
Theorem callback_provider_failures env searchParams w :
  callback_validated searchParams w = true ->
  let code := default "" (searchParams_get "code" searchParams) in
  let r := handleGoogleOAuthCallback env searchParams w in
  match googleOAuth_validateCallback env code with
  | ProviderRejects =>
      fst r = Returned (CallbackFailed "Authentication failed.")
      /\ users (snd r) = users w /\ sessions (snd r) = sessions w
      /\ List.filter is_provider_call (trace (snd r))
         = (List.filter is_provider_call (trace w) ++ [ProviderValidateCallback code])%list
  | ProviderUser googleUser =>
      truthy (g_email googleUser) = false ->
      fst r = Returned (CallbackFailed "Authentication failed (email missing from Google).")
      /\ users (snd r) = users w /\ sessions (snd r) = sessions w
      /\ List.filter is_provider_call (trace (snd r))
         = (List.filter is_provider_call (trace w) ++ [ProviderValidateCallback code])%list
  end.
Proof.
  intros Hguard code r. subst r code.
  rewrite (callback_run_validated _ _ _ Hguard).
  unfold validateCallback. run_action.
  destruct (googleOAuth_validateCallback env _) as [g|]; simpl.
  - intros Hemail. rewrite Hemail. simpl.
    rewrite !List.filter_app. simpl. rewrite !app_nil_r. auto.
  - rewrite !List.filter_app. simpl. rewrite !app_nil_r. auto.
Qed.

(** X11: the Google callback never makes the browser signed in for the
    rest of the code.  Whatever its outcome, it leaves the [session]
    cookie as it was (Lucia's cookie being named otherwise); so for a
    browser without one, [getCurrentUser] still returns null afterwards
    and the access guard still redirects the dashboard to the signin
    page.  When the callback succeeds, what it did instead is store a
    session row for the user and write the cookie Lucia makes for that
    session, under Lucia's name, with Lucia's value and attributes. *)
Theorem google_login_leaves_session_cookie env searchParams w :
  (forall sid, sc_name (createSessionCookie sid) <> "session") ->
  let r := handleGoogleOAuthCallback env searchParams w in
  let w' := snd r in
  let cookie := createSessionCookie (generateSessionId env) in
  cookieStore w' !! "session" = cookieStore w !! "session"
  /\ (cookieStore w !! "session" = None ->
      fst (getCurrentUser w') = Returned None
      /\ forall origin,
           middleware (request_for origin "/dashboard" w')
           = signin_redirect (request_for origin "/dashboard" w'))
  /\ (forall uid, fst r = Returned (CallbackOk uid) ->
      In (sessionsTable.mk (generateSessionId env) uid (now env + sessionExpiresIn))
         (sessions w')
      /\ cookieStore w' !! sc_name cookie
         = Some {| value := sc_value cookie;
                   httpOnly := httpOnly (sc_attributes cookie);
                   secure := secure (sc_attributes cookie);
                   maxAge := maxAge (sc_attributes cookie);
                   expires := expires (sc_attributes cookie);
                   path := path (sc_attributes cookie);
                   sameSite := sameSite (sc_attributes cookie) |}).
Proof.
  intros Hname r w' cookie. subst cookie w' r.
  assert (Hcookie : cookieStore (snd (handleGoogleOAuthCallback env searchParams w))
                      !! "session" = cookieStore w !! "session").
  { rewrite (callback_cookie_frame _ _ _ _ Hname).
    destruct (callback_validated searchParams w); [|reflexivity].
    simpl. now rewrite !lookup_delete_ne by done. }
  split; [exact Hcookie|]. split.
  - intros Hnone. rewrite Hnone in Hcookie. split.
    + rewrite getCurrentUser_run, Hcookie. reflexivity.
    + intros origin. unfold middleware, signin_redirect, request_for. simpl.
      rewrite lookup_fmap, Hcookie. reflexivity.
  - intros uid Hok. now apply callback_ok_session.
Qed.

(** X12: [signInWithGoogle] always leaves through the redirect to
    [/signin?error=google_oauth_failed]: when the authorization URL is
    built, both transient cookies are written (httpOnly, one hour, path
    [/]) and the redirect to the provider, raised inside the [try] block,
    is caught by the function's own [catch]; when it is not, no cookie is
    written.  No table changes either way. *)
Theorem signInWithGoogle_always_error_redirect env w :
  let r := signInWithGoogle env w in
  fst r = Thrown (NEXT_REDIRECT "/signin?error=google_oauth_failed")
  /\ users (snd r) = users w /\ sessions (snd r) = sessions w
  /\ resetTokens (snd r) = resetTokens w
  /\ match GOOGLE_AUTHORIZATION_URL env with
     | Some _ =>
         cookieStore (snd r)
         = <["google_code_verifier" :=
               {| value := generateCodeVerifier env; httpOnly := true;
                  secure := production env; maxAge := Some 3600; expires := None;
                  path := Some "/"; sameSite := None |}]>
             (<["google_oauth_state" :=
                  {| value := generateState env; httpOnly := true;
                     secure := production env; maxAge := Some 3600; expires := None;
                     path := Some "/"; sameSite := None |}]> (cookieStore w))
     | None => cookieStore (snd r) = cookieStore w
     end.
Proof.
  unfold signInWithGoogle. run_action.
  destruct (GOOGLE_AUTHORIZATION_URL env); simpl; auto 10.
Qed.

(** X13: the state of one authorization attempt is good for one callback.
    After [signInWithGoogle] wrote the transient cookies, a callback that
    brings back the generated state and a code passes the guard; once it
    ran, whatever its outcome, the same callback sent again is rejected
    with the state-mismatch failure. *)
Theorem oauth_state_single_use env env' env'' searchParams w url code :
  GOOGLE_AUTHORIZATION_URL env = Some url ->
  generateState env <> "" -> generateCodeVerifier env <> "" ->
  searchParams_get "state" searchParams = Some (generateState env) ->
  searchParams_get "code" searchParams = Some code -> code <> "" ->
  (forall sid, sc_name (createSessionCookie sid) <> "google_oauth_state") ->
  (forall sid, sc_name (createSessionCookie sid) <> "google_code_verifier") ->
  let w1 := snd (signInWithGoogle env w) in
  let w2 := snd (handleGoogleOAuthCallback env' searchParams w1) in
  callback_validated searchParams w1 = true
  /\ fst (handleGoogleOAuthCallback env'' searchParams w2)
     = Returned (CallbackFailed state_mismatch_error).
Proof.
  intros Hurl Hstate Hverifier Hqstate Hqcode Hcode Hname1 Hname2 w1 w2.
  assert (Hguard : callback_validated searchParams w1 = true).
  { subst w1. unfold callback_validated, signInWithGoogle. run_action.
    rewrite Hurl. simpl. rewrite Hqstate, Hqcode. simpl.
    rewrite lookup_insert_ne by done. rewrite !lookup_insert_eq. simpl.
    apply String.eqb_neq in Hstate, Hverifier, Hcode.
    rewrite Hstate, Hverifier, Hcode. simpl.
    rewrite bool_decide_eq_true_2 by reflexivity. reflexivity. }
  split; [exact Hguard|].
  assert (Hgone : cookieStore w2 !! "google_oauth_state" = None).
  { subst w2. rewrite (callback_cookie_frame _ _ _ _ Hname1), Hguard. simpl.
    rewrite lookup_delete_ne by done. apply lookup_delete_eq. }
  rewrite callback_guard_rejects; [reflexivity|].
  unfold callback_validated. rewrite Hgone. simpl.
  now rewrite !orb_true_r.
Qed.

(** ** The access guard and the cookie it trusts *)

(** X14: the guard cannot loop.  Whenever it redirects, the target path is
    [/signin], which it lets through for every origin and every cookie jar,
    and the [callbackUrl] it attaches is the protected path that was
    asked for. *)
Theorem middleware_no_redirect_loop request url :
  middleware request = redirect_to url ->
  (forall origin cookies,
     middleware {| req_origin := origin; req_pathname := url_pathname url;
                   req_cookies := cookies |} = next)
  /\ searchParams url = [("callbackUrl", req_pathname request)]
  /\ isProtectedRoute (req_pathname request) = true.
Proof.
  unfold middleware, searchParams_append. simpl.
  destruct (isProtectedRoute (req_pathname request)); simpl; [|discriminate].
  destruct (truthy (req_cookies request !! "session")); simpl; [discriminate|].
  intros [= <-]. simpl. auto.
Qed.

(** X15: [getCurrentUser] reads only the leading integer of the cookie.
    A [session] cookie made of a stored user's id followed by anything
    that does not start with a digit is accepted as that user's session. *)
Theorem getCurrentUser_lenient_cookie w user suffix c :
  ids_int4 w ->
  List.find (fun u => usersTable.id u =? usersTable.id user) (users w) = Some user ->
  starts_with_digit suffix = false ->
  cookieStore w !! "session" = Some c ->
  value c = toString (usersTable.id user) +:+ suffix ->
  fst (getCurrentUser w) = Returned (Some user).
Proof.
  intros Hids Hkey Hsuffix Hcookie Hvalue.
  assert (Hint : int4 (usersTable.id user) = true).
  { apply find_some in Hkey as [Hin _]. unfold ids_int4 in Hids.
    rewrite List.Forall_forall in Hids. now apply Hids. }
  rewrite getCurrentUser_run, Hcookie. simpl. rewrite Hvalue.
  rewrite (parseInt_toString_append _ _ Hint Hsuffix), Hint, Hkey. reflexivity.
Qed.

(** ** The Google flow from the empty store *)

(** Where no stored row carries a provider id, every callback fails and
    writes neither a user nor a session. *)
Lemma callback_without_google_rows env searchParams w :
  Forall (fun u => usersTable.provider u = "email" /\ usersTable.provider_id u = None)
    (users w) ->
  let r := handleGoogleOAuthCallback env searchParams w in
  (exists msg, fst r = Returned (CallbackFailed msg))
  /\ users (snd r) = users w
  /\ sessions (snd r) = sessions w.
Proof.
  intros Hrows r. subst r.
  destruct (callback_validated searchParams w) eqn:Hguard.
  2:{ rewrite (callback_guard_rejects _ _ Hguard). simpl. eauto. }
  rewrite (callback_run_validated _ _ _ Hguard).
  unfold validateCallback. run_action.
  destruct (googleOAuth_validateCallback env _) as [g|]; simpl; [|eauto].
  destruct (truthy (g_email g)); simpl; [|eauto].
  match goal with
  | |- context [resolve_account ?e ?s ?u ?w0] =>
      assert (Hfind : List.find (fun x => eq_opt (usersTable.provider_id x) s) (users w0)
                      = None)
  end.
  { apply find_none_forall. intros u Hin. simpl in Hin.
    rewrite List.Forall_forall in Hrows. destruct (Hrows u Hin) as [_ Hnone].
    now rewrite Hnone. }
  rewrite (resolve_account_missing _ _ _ _ Hfind). simpl. eauto.
Qed.

Lemma password_accounts_only_step w w' :
  step w w' -> password_accounts_only w -> password_accounts_only w'.
Proof.
  intros [env request|cs] [Hrows Hsessions]; [|now split].
  destruct request as [f|f| | |f|f| |q]; simpl; unfold world_after.
  - unfold signup. run_action. break_goal; (split; [|assumption]); try assumption.
    apply Forall_app. split; [assumption|].
    constructor; [|constructor]. simpl. now split.
  - unfold signin. run_action. break_goal; now split.
  - unfold getCurrentUser. run_action. break_goal; now split.
  - now split.
  - unfold forgotPassword. run_action. break_goal; now split.
  - destruct (resetPasswordSchema f) as [[token password]|fe] eqn:Hparse.
    + rewrite (resetPassword_run _ _ _ _ _ Hparse).
      break_goal; (split; [|assumption]); try assumption.
      simpl. apply List.Forall_map. revert Hrows. apply List.Forall_impl.
      intros u Hu. now destruct (usersTable.id u =? _).
    + unfold resetPassword. rewrite Hparse. now split.
  - unfold signInWithGoogle. run_action. break_goal; now split.
  - destruct (callback_without_google_rows env q w Hrows) as (_ & Hu & Hs).
    split; [now rewrite Hu | now rewrite Hs].
Qed.

(** X22: from the empty store on, signing in through Google never works.
    Whatever requests are served, one at a time, and whatever the client
    does to its cookies, the store only ever holds password accounts
    without a provider id and no session row, because the one place that
    would create a Google account calls [auth.createUser], which the
    Lucia object does not have; so every callback, whatever its query,
    the provider's reply and the outcome of the session call, returns a
    failure and writes neither a user nor a session. *)
Theorem google_signin_never_succeeds w :
  reachable step initial_world w ->
  password_accounts_only w
  /\ forall env searchParams,
       let r := handleGoogleOAuthCallback env searchParams w in
       (exists msg, fst r = Returned (CallbackFailed msg))
       /\ users (snd r) = users w
       /\ sessions (snd r) = sessions w.
Proof.
  intros Hreach.
  assert (Hinv : password_accounts_only w).
  { induction Hreach as [|w1 w2 Hreach IH Hstep].
    - split; [constructor | reflexivity].
    - now apply (password_accounts_only_step w1). }
  split; [exact Hinv|].
  intros env searchParams. apply callback_without_google_rows. apply Hinv.
Qed.

(** ** The client forms *)

(** X17: the password generator of the signup form.  With every draw
    [Math.floor(Math.random() * n)] in the range of the charset, the
    generated password has twelve characters, each one of the charset, and
    so passes the eight-character rule of the form and of the server. *)
Theorem generatePassword_shape (rnd : nat -> Z) :
  (forall k, (k < 12)%nat -> 0 <= rnd k < Z.of_nat (String.length charset)) ->
  String.length (generatePassword rnd) = 12%nat
  /\ (forall c, In c (list_ascii_of_string (generatePassword rnd)) ->
                In c (list_ascii_of_string charset))
  /\ min_length 8 (generatePassword rnd) = true.
Proof.
  intros Hrnd. unfold generatePassword.
  destruct (generatePassword_from_spec rnd 12 0 "") as (Hlen & Hchars).
  { intros k Hk. apply Hrnd. lia. }
  split; [exact Hlen|]. split.
  - intros c Hc. apply Hchars in Hc as [[]|Hc]. exact Hc.
  - unfold min_length. rewrite Hlen. reflexivity.
Qed.




(** X19: the signin form never navigates.  Whatever the values, the
    handler ends with the busy flag off, an error line shown and no route
    pushed; with the credentials of a stored password account the line is
    the [catch] message of [signin] although the server has written that
    user's [session] cookie. *)
Theorem signin_form_never_navigates env email password ui w :
  let r := signin_onSubmit env email password ui w in
  ui_isLoading (fst r) = false
  /\ ui_pushed (fst r) = ui_pushed ui
  /\ is_Some (ui_error (fst r))
  /\ (forall user h,
        signin_formSchema email password = [] ->
        List.find (fun u => String.eqb (usersTable.email u) email) (users w) = Some user ->
        usersTable.hashed_password user = Some h -> h <> "" ->
        bcrypt_compare password h = true ->
        ui_error (fst r) = Some "An unexpected error occurred during signin."
        /\ value <$> cookieStore (snd r) !! "session"
           = Some (toString (usersTable.id user))).
Proof.
  intros r. subst r. unfold signin_onSubmit.
  set (formData := <["password" := password]> (<["email" := email]> ∅)).
  assert (Hparse : signinSchema formData
                   = if zod_email email && min_length 1 password
                     then ParseOk (email, password)
                     else ParseError
                            (fieldErrors_of
                               [("email", field_issues (Some email)
                                            [(zod_email, "Invalid email address")]);
                                ("password", field_issues (Some password)
                                               [(min_length 1, "Password is required")])])).
  { unfold signinSchema, formData, fieldErrors_of, field_issues, FormData.
    rewrite lookup_insert_eq.
    rewrite (lookup_insert_ne _ "password" "email") by done. rewrite lookup_insert_eq.
    rewrite !filter_cons_if, !filter_nil_eq. simpl.
    destruct (zod_email email), (min_length 1 password); reflexivity. }
  destruct (zod_email email && min_length 1 password) eqn:Hvalid.
  - rewrite (signin_run _ _ _ _ _ Hparse).
    destruct (with_password _) as [[user0 h0]|] eqn:Hwp.
    + destruct (bcrypt_compare password h0) eqn:Hcmp; simpl.
      * split; [reflexivity|]. split; [reflexivity|]. split; [now eexists|].
        intros user h _ Hfind Hhash Hnonempty _.
        rewrite with_password_spec, Hfind, Hhash in Hwp.
        apply String.eqb_neq in Hnonempty. rewrite Hnonempty in Hwp.
        injection Hwp as <- <-. split; [reflexivity|].
        rewrite lookup_insert_eq. reflexivity.
      * split; [reflexivity|]. split; [reflexivity|]. split; [now eexists|].
        intros user h _ Hfind Hhash Hnonempty Hgood.
        rewrite with_password_spec, Hfind, Hhash in Hwp.
        apply String.eqb_neq in Hnonempty. rewrite Hnonempty in Hwp.
        injection Hwp as <- <-. congruence.
    + simpl. split; [reflexivity|]. split; [reflexivity|]. split; [now eexists|].
      intros user h _ Hfind Hhash Hnonempty _.
      rewrite with_password_spec, Hfind, Hhash in Hwp.
      apply String.eqb_neq in Hnonempty. now rewrite Hnonempty in Hwp.
  - unfold signin. rewrite Hparse. run_action.
    unfold fieldErrors_of, field_issues.
    rewrite !filter_cons_if, !filter_nil_eq. simpl.
    assert (Hclient : signin_formSchema email password <> []).
    { unfold signin_formSchema, fieldErrors_of, field_issues.
      rewrite !filter_cons_if, !filter_nil_eq. simpl.
      destruct (zod_email email), (min_length 1 password); simpl; discriminate. }
    destruct (zod_email email), (min_length 1 password); try discriminate; simpl.
    all: (split; [reflexivity|]); (split; [reflexivity|]); (split; [now eexists|]).
    all: intros; contradiction.
Qed.

(** ** From one action to the next *)


(** X21: the session cookie opens and closes the protected routes.  After
    a signin with good credentials the access guard lets every path
    through for the browser's cookies; after a [signout] it sends every
    protected path back to the signin page. *)
Theorem signin_opens_signout_closes env formData w email password user h :
  signinSchema formData = ParseOk (email, password) ->
  List.find (fun u => String.eqb (usersTable.email u) email) (users w) = Some user ->
  usersTable.hashed_password user = Some h -> h <> "" ->
  bcrypt_compare password h = true ->
  let w1 := snd (signin env formData w) in
  let w2 := snd (signout w1) in
  forall origin pathname,
    middleware (request_for origin pathname w1) = next
    /\ (isProtectedRoute pathname = true ->
        middleware (request_for origin pathname w2)
        = signin_redirect (request_for origin pathname w2)).
Proof.
  intros Hparse Hfind Hhash Hnonempty Hcmp w1 w2 origin pathname. subst w2 w1.
  rewrite (signin_run _ _ _ _ _ Hparse), with_password_spec, Hfind, Hhash.
  apply String.eqb_neq in Hnonempty. rewrite Hnonempty, Hcmp.
  unfold signout, middleware, signin_redirect, request_for. run_action. split.
  - rewrite lookup_fmap, lookup_insert_eq. simpl.
    pose proof (toString_nonempty (usersTable.id user)) as Hid.
    apply String.eqb_neq in Hid. rewrite Hid. simpl.
    now rewrite andb_false_r.
  - intros Hprotected. rewrite Hprotected, lookup_fmap, lookup_delete_eq. reflexivity.
Qed.
End MoreProperties.

(** * The theorems at work on concrete runs *)

#[local] Existing Instance demo_zod.
#[local] Existing Instance demo_bcrypt.
#[local] Existing Instance demo_lucia.

(** On C1: Ann, user 7, signs in; her session cookie is [7], on this run and
    on any other. *)
Lemma signin_session_token_is_user_id_witness :
  value <$> cookieStore (snd (signin demo_env ann_signin demo_world)) !! "session" = Some "7"
  /\ sessions (snd (signin demo_env ann_signin demo_world)) = []
  /\ (forall env', value <$> cookieStore (snd (signin env' ann_signin demo_world)) !! "session"
                   = value <$> cookieStore (snd (signin demo_env ann_signin demo_world))
                               !! "session")
  /\ (ids_int4 demo_world -> parseInt "7" = Some 7).
Proof.
  apply (signin_session_token_is_user_id demo_env ann_signin demo_world
           "ann@x.com" "longenough1" ann "s1$longenough1");
    [reflexivity | reflexivity | reflexivity | discriminate | reflexivity].
Defined.

(** On C2: the forged callback leaves both transient cookies in the jar. *)
Lemma callback_keeps_cookies_on_mismatch :
  ~ (cookieStore (world_after (handleGoogleOAuthCallback demo_env forged_query pending_world))
       !! "google_oauth_state" = None
     /\ cookieStore (world_after (handleGoogleOAuthCallback demo_env forged_query pending_world))
          !! "google_code_verifier" = None).
Proof. vm_compute. intros [Hstate _]. discriminate. Qed.

Lemma callback_transient_cookies_witness :
  cookieStore (world_after (handleGoogleOAuthCallback demo_env good_query pending_world))
    !! "google_oauth_state" = None
  /\ cookieStore (world_after (handleGoogleOAuthCallback demo_env good_query pending_world))
       !! "google_code_verifier" = None.
Proof.
  apply (callback_transient_cookies demo_env good_query pending_world);
    intros sid; discriminate.
Defined.

Lemma callback_rejected_before_provider_witness :
  searchParams_get "state" forged_query
  <> value <$> cookieStore pending_world !! "google_oauth_state"
  /\ fst (handleGoogleOAuthCallback demo_env forged_query pending_world)
     = Returned (CallbackFailed state_mismatch_error).
Proof.
  assert (Hdiffer : searchParams_get "state" forged_query
                    <> value <$> cookieStore pending_world !! "google_oauth_state")
    by (vm_compute; discriminate).
  split; [exact Hdiffer|].
  apply (callback_rejected_before_provider demo_env forged_query pending_world).
  right. right. left. exact Hdiffer.
Defined.

(** On C4: Ann's token [T1] resets her password once; the same token, sent
    again later with another password, is refused. *)
Lemma reset_token_single_use_witness :
  fst (resetPassword demo_env (reset_form T1 "newpass123") issued_world)
  = Returned (SuccessMessage "Your password has been successfully reset.")
  /\ fst (resetPassword later_env (reset_form T1 "again12345") consumed_world)
     = Returned (Failure [("_form", ["Invalid or expired reset token."])]).
Proof.
  assert (Hparse : resetPasswordSchema (reset_form T1 "newpass123")
                   = ParseOk (T1, "newpass123")) by (vm_compute; reflexivity).
  assert (Hparse2 : resetPasswordSchema (reset_form T1 "again12345")
                    = ParseOk (T1, "again12345")) by (vm_compute; reflexivity).
  assert (Husers : users issued_world = [ann; bob]) by (vm_compute; reflexivity).
  assert (Htokens : resetTokens issued_world = [passwordResetTokensTable.mk T1 7 3601000])
    by (vm_compute; reflexivity).
  assert (Howned : tokens_owned issued_world).
  { unfold tokens_owned. rewrite Htokens. repeat constructor. }
  assert (Hids : ids_int4 issued_world).
  { unfold ids_int4. rewrite Husers. repeat constructor. }
  assert (Hvalid : validate_resetToken T1 (now demo_env) issued_world = Some 7)
    by (vm_compute; reflexivity).
  pose proof (reset_token_single_use demo_env (reset_form T1 "newpass123") issued_world
                T1 "newpass123" Hparse) as Hthm.
  destruct Hthm as (_ & _ & Hsuccess & Hreplay).
  destruct (Hsuccess Howned Hids 7 Hvalid) as (Hresult & _).
  split; [exact Hresult|].
  unfold consumed_world, world_after.
  pose proof (Hreplay _ Hresult _ (reach_here _ _)) as [_ Hrefused].
  exact (Hrefused later_env _ _ Hparse2).
Defined.



(** On C6: the same answer for Ann, who has an account, with the mail
    accepted, and on a run where the send throws. *)
Lemma forgotPassword_generic_success_witness :
  fst (forgotPassword demo_env ann_forgot demo_world)
  = Returned (SuccessMessage generic_reset_message)
  /\ forall env' w', fst (forgotPassword env' ann_forgot w')
                     = fst (forgotPassword demo_env ann_forgot demo_world).
Proof.
  assert (Hparse : forgotPasswordSchema ann_forgot = ParseOk "ann@x.com") by (vm_compute; reflexivity).
  destruct (forgotPassword_generic_success demo_env ann_forgot demo_world "ann@x.com" Hparse)
    as (Hresult & Hsame & _).
  split; [exact Hresult | exact Hsame].
Defined.

(** On C7: Cy, subject [g-2002], is new: the callback answers
    [database error] and the store keeps its two users.  Bob, subject
    [g-1001], is found by his subject; on this run the session call
    rejects and he gets [Authentication failed.]. *)
Lemma callback_resolves_by_subject_witness :
  (fst (handleGoogleOAuthCallback demo_env good_query pending_world)
   = Returned (CallbackFailed "database error")
   /\ users (snd (handleGoogleOAuthCallback demo_env good_query pending_world)) = [ann; bob]
   /\ sessions (snd (handleGoogleOAuthCallback demo_env good_query pending_world)) = [])
  /\ (fst (handleGoogleOAuthCallback bob_env good_query pending_world)
      = Returned (CallbackFailed "Authentication failed.")
      /\ users (snd (handleGoogleOAuthCallback bob_env good_query pending_world))
         = [ann; bob]).
Proof.
  assert (Hguard : callback_validated good_query pending_world = true) by (vm_compute; reflexivity).
  assert (Hcy : "cy@x.com" <> "") by discriminate.
  assert (Hbob : "bob@x.com" <> "") by discriminate.
  split.
  - destruct (callback_resolves_by_subject demo_env good_query pending_world demo_google_user
                "cy@x.com" Hguard eq_refl eq_refl Hcy)
      as (Husers & Hfailed & Hsessions).
    split; [exact Hfailed|]. split; [exact Husers | exact Hsessions].
  - destruct (callback_resolves_by_subject bob_env good_query pending_world bob_google_user
                "bob@x.com" Hguard eq_refl eq_refl Hbob)
      as (Husers & _ & _ & Hrejects & _).
    split; [exact (proj1 (Hrejects eq_refl)) | exact Husers].
Defined.

(** On C9: an unknown address, Bob's provider-only account, and Ann's wrong
    password all get the same answer. *)
Lemma signin_failures_indistinguishable_witness :
  fst (signin demo_env nobody_signin demo_world)
  = Returned (Failure [("email", ["Invalid credentials"])])
  /\ fst (signin demo_env bob_signin demo_world)
     = Returned (Failure [("email", ["Invalid credentials"])])
  /\ fst (signin demo_env ann_wrong_password demo_world)
     = Returned (Failure [("email", ["Invalid credentials"])]).
Proof.
  assert (Hnobody : signinSchema nobody_signin = ParseOk ("zed@x.com", "whatever"))
    by (vm_compute; reflexivity).
  assert (Hbob : signinSchema bob_signin = ParseOk ("bob@x.com", "whatever")) by (vm_compute; reflexivity).
  assert (Hann : signinSchema ann_wrong_password = ParseOk ("ann@x.com", "wrong"))
    by (vm_compute; reflexivity).
  split; [|split].
  - apply (signin_failures_indistinguishable demo_env nobody_signin demo_world _ _ Hnobody).
    left. reflexivity.
  - apply (signin_failures_indistinguishable demo_env bob_signin demo_world _ _ Hbob).
    right. left. exists bob. split; reflexivity.
  - apply (signin_failures_indistinguishable demo_env ann_wrong_password demo_world _ _ Hann).
    right. right. exists ann, "s1$longenough1". repeat split.
Defined.

(** On C10: the cookie [session=8] alone makes Bob the current user. *)
Lemma getCurrentUser_trusts_cookie_witness :
  ids_int4 forged_session_world
  /\ fst (getCurrentUser forged_session_world) = Returned (Some bob).
Proof.
  assert (Hids : ids_int4 forged_session_world) by (repeat constructor).
  split; [exact Hids|].
  destruct (getCurrentUser_trusts_cookie forged_session_world Hids) as (_ & _ & Hfound & _).
  apply (Hfound "8" 8 bob); reflexivity.
Defined.


(** On X2: Ann's address is taken; the store is left as it was. *)
Lemma signup_duplicate_email_witness :
  signup demo_env ann_again_signup demo_world
  = (Returned (Failure [("email", ["Email already exists"])]), demo_world).
Proof.
  assert (Hparse : signupSchema ann_again_signup
                   = ParseOk ("Ann B", "ann@x.com", "longenough2"))
    by (vm_compute; reflexivity).
  assert (Htaken : List.find (fun u => String.eqb (usersTable.email u) "ann@x.com")
                     (users demo_world) = Some ann) by (vm_compute; reflexivity).
  exact (signup_duplicate_email demo_env ann_again_signup demo_world _ _ _ ann Hparse Htaken).
Defined.

(** On X4: Ann signs in and is the current user. *)
Lemma signin_then_getCurrentUser_witness :
  fst (getCurrentUser (snd (signin demo_env ann_signin demo_world))) = Returned (Some ann).
Proof.
  assert (Hparse : signinSchema ann_signin = ParseOk ("ann@x.com", "longenough1"))
    by (vm_compute; reflexivity).
  assert (Hfind : List.find (fun u => String.eqb (usersTable.email u) "ann@x.com")
                    (users demo_world) = Some ann) by (vm_compute; reflexivity).
  assert (Hhash : usersTable.hashed_password ann = Some "s1$longenough1") by reflexivity.
  assert (Hnonempty : "s1$longenough1" <> "") by discriminate.
  assert (Hcmp : bcrypt_compare "longenough1" "s1$longenough1" = true)
    by (vm_compute; reflexivity).
  assert (Hids : ids_int4 demo_world) by (repeat constructor).
  assert (Hkey : List.find (fun u => usersTable.id u =? usersTable.id ann) (users demo_world)
                 = Some ann) by (vm_compute; reflexivity).
  exact (signin_then_getCurrentUser demo_env ann_signin demo_world _ _ ann _
           Hparse Hfind Hhash Hnonempty Hcmp Hids Hkey).
Defined.

(** On X6: Ann's link, issued at 1000, works at 5000 and is dead at
    3601000. *)
Lemma reset_link_lifetime_witness :
  fst (resetPassword later_env (reset_form T1 "newpass123")
         (snd (forgotPassword demo_env ann_forgot demo_world)))
  = Returned (SuccessMessage "Your password has been successfully reset.")
  /\ fst (resetPassword hour_later_env (reset_form T1 "newpass123")
            (snd (forgotPassword demo_env ann_forgot demo_world)))
     = Returned (Failure [("_form", ["Invalid or expired reset token."])]).
Proof.
  assert (Hparse1 : forgotPasswordSchema ann_forgot = ParseOk "ann@x.com")
    by (vm_compute; reflexivity).
  assert (Hfind : List.find (fun u => String.eqb (usersTable.email u) "ann@x.com")
                    (users demo_world) = Some ann) by (vm_compute; reflexivity).
  assert (Hfresh : token_absent (uuidv4 demo_env) demo_world) by (intros r []).
  assert (Hids : ids_int4 demo_world) by (repeat constructor).
  assert (Hkey : List.find (fun u => usersTable.id u =? usersTable.id ann) (users demo_world)
                 = Some ann) by (vm_compute; reflexivity).
  assert (Hparse2 : resetPasswordSchema (reset_form T1 "newpass123")
                    = ParseOk (uuidv4 demo_env, "newpass123")) by (vm_compute; reflexivity).
  assert (Hearly : now later_env < now demo_env + 1 * 3600000) by (vm_compute; reflexivity).
  assert (Hlate : now demo_env + 1 * 3600000 <= now hour_later_env)
    by (vm_compute; discriminate).
  split.
  - destruct (reset_link_lifetime demo_env later_env ann_forgot (reset_form T1 "newpass123")
                demo_world "ann@x.com" ann "newpass123"
                Hparse1 Hfind Hfresh Hids Hkey Hparse2) as (Hbefore & _).
    exact (proj1 (Hbefore Hearly)).
  - destruct (reset_link_lifetime demo_env hour_later_env ann_forgot
                (reset_form T1 "newpass123") demo_world "ann@x.com" ann "newpass123"
                Hparse1 Hfind Hfresh Hids Hkey Hparse2) as (_ & Hafter).
    exact (f_equal fst (Hafter Hlate)).
Defined.

(** On X7: after her reset Ann signs in with the new password. *)
Lemma reset_then_signin_witness :
  value <$> cookieStore
              (snd (signin later_env ann_new_signin
                      (snd (resetPassword demo_env (reset_form T1 "newpass123") issued_world))))
            !! "session"
  = Some "7".
Proof.
  assert (Hparse : resetPasswordSchema (reset_form T1 "newpass123")
                   = ParseOk (T1, "newpass123")) by (vm_compute; reflexivity).
  assert (Htoken : List.find (token_valid_at T1 (now demo_env)) (resetTokens issued_world)
                   = Some (passwordResetTokensTable.mk T1 7 3601000))
    by (vm_compute; reflexivity).
  assert (Hint : int4 7 = true) by (vm_compute; reflexivity).
  assert (Hkey : List.find (fun u => usersTable.id u =? 7) (users issued_world) = Some ann)
    by (vm_compute; reflexivity).
  assert (Hmail : List.find (fun u => String.eqb (usersTable.email u) (usersTable.email ann))
                    (users issued_world) = Some ann) by (vm_compute; reflexivity).
  assert (Hparse' : signinSchema ann_new_signin = ParseOk (usersTable.email ann, "newpass123"))
    by (vm_compute; reflexivity).
  assert (Hnonempty : bcrypt_hash (salt demo_env) "newpass123" <> "")
    by (vm_compute; discriminate).
  assert (Hcmp : bcrypt_compare "newpass123" (bcrypt_hash (salt demo_env) "newpass123") = true)
    by (vm_compute; reflexivity).
  exact (proj2 (reset_then_signin demo_env later_env (reset_form T1 "newpass123")
                  ann_new_signin issued_world T1 "newpass123"
                  (passwordResetTokensTable.mk T1 7 3601000) ann
                  Hparse Htoken Hint Hkey Hmail Hparse' Hnonempty Hcmp)).
Defined.

(** On X8: the mismatched form leaves Ann's token in the store. *)
Lemma reset_mismatch_keeps_token_witness :
  fst (resetPassword demo_env mismatched_reset_form issued_world)
  = Returned (Failure [("confirmPassword", ["Passwords don't match"])])
  /\ resetTokens (snd (resetPassword demo_env mismatched_reset_form issued_world))
     = resetTokens issued_world.
Proof.
  assert (Htoken : mismatched_reset_form !! "token" = Some T1) by (vm_compute; reflexivity).
  assert (Huuid : zod_uuid T1 = true) by (vm_compute; reflexivity).
  assert (Hpassword : mismatched_reset_form !! "password" = Some "newpass123")
    by (vm_compute; reflexivity).
  assert (Hlen : min_length 8 "newpass123" = true) by (vm_compute; reflexivity).
  assert (Hconfirm : mismatched_reset_form !! "confirmPassword" = Some "newpass124")
    by (vm_compute; reflexivity).
  assert (Hlen' : min_length 8 "newpass124" = true) by (vm_compute; reflexivity).
  assert (Hdiffer : "newpass123" <> "newpass124") by discriminate.
  destruct (reset_mismatch_keeps_token demo_env mismatched_reset_form issued_world
              T1 "newpass123" "newpass124"
              Htoken Huuid Hpassword Hlen Hconfirm Hlen' Hdiffer) as (Hresult & Htokens & _).
  split; [exact Hresult | exact Htokens].
Defined.

(** On X9: one mail goes to Ann, with the link that carries [T1]. *)
Lemma forgotPassword_mail_witness :
  List.filter is_mail_call (trace (snd (forgotPassword demo_env ann_forgot demo_world)))
  = [MailSend "noreply@x.com" "ann@x.com"
       "http://x.com/reset-password?token=11111111-1111-4111-8111-111111111111"].
Proof.
  assert (Hparse : forgotPasswordSchema ann_forgot = ParseOk "ann@x.com")
    by (vm_compute; reflexivity).
  pose proof (forgotPassword_mail demo_env ann_forgot demo_world "ann@x.com" Hparse) as Hmail.
  cbv zeta in Hmail.
  assert (Hfind : List.find (fun u => String.eqb (usersTable.email u) "ann@x.com")
                    (users demo_world) = Some ann) by (vm_compute; reflexivity).
  rewrite Hfind in Hmail. exact (proj2 Hmail).
Defined.

(** On X10: the provider refuses the code; the callback fails and the
    store keeps its two users. *)
Lemma callback_provider_failures_witness :
  fst (handleGoogleOAuthCallback later_env good_query pending_world)
  = Returned (CallbackFailed "Authentication failed.")
  /\ users (snd (handleGoogleOAuthCallback later_env good_query pending_world)) = [ann; bob].
Proof.
  assert (Hguard : callback_validated good_query pending_world = true)
    by (vm_compute; reflexivity).
  pose proof (callback_provider_failures later_env good_query pending_world Hguard) as Hfail.
  cbv zeta in Hfail.
  change (googleOAuth_validateCallback later_env
            (default "" (searchParams_get "code" good_query)))
    with ProviderRejects in Hfail.
  destruct Hfail as (Hresult & Husers & _).
  split; [exact Hresult | exact Husers].
Defined.

(** On X11: after the callback for Cy the browser still has no [session]
    cookie, and [getCurrentUser] returns null. *)
Lemma google_login_leaves_session_cookie_witness :
  cookieStore (snd (handleGoogleOAuthCallback demo_env good_query pending_world))
    !! "session" = None
  /\ fst (getCurrentUser (snd (handleGoogleOAuthCallback demo_env good_query pending_world)))
     = Returned None.
Proof.
  assert (Hname : forall sid, sc_name (createSessionCookie sid) <> "session")
    by (intros sid; discriminate).
  assert (Hnone : cookieStore pending_world !! "session" = None) by (vm_compute; reflexivity).
  destruct (google_login_leaves_session_cookie demo_env good_query pending_world Hname)
    as (Hcookie & Hout & _).
  split; [now rewrite Hcookie | exact (proj1 (Hout Hnone))].
Defined.

(** On X13: the state [st-1] passes once. *)
Lemma oauth_state_single_use_witness :
  callback_validated good_query (snd (signInWithGoogle demo_env demo_world)) = true
  /\ fst (handleGoogleOAuthCallback later_env good_query
            (snd (handleGoogleOAuthCallback demo_env good_query
                    (snd (signInWithGoogle demo_env demo_world)))))
     = Returned (CallbackFailed state_mismatch_error).
Proof.
  assert (Hurl : GOOGLE_AUTHORIZATION_URL demo_env
                 = Some "https://accounts.google.com/o/oauth2/v2/auth") by reflexivity.
  assert (Hstate : generateState demo_env <> "") by discriminate.
  assert (Hverifier : generateCodeVerifier demo_env <> "") by discriminate.
  assert (Hqstate : searchParams_get "state" good_query = Some (generateState demo_env))
    by (vm_compute; reflexivity).
  assert (Hqcode : searchParams_get "code" good_query = Some "c0de")
    by (vm_compute; reflexivity).
  assert (Hcode : "c0de" <> "") by discriminate.
  assert (Hname1 : forall sid, sc_name (createSessionCookie sid) <> "google_oauth_state")
    by (intros sid; discriminate).
  assert (Hname2 : forall sid, sc_name (createSessionCookie sid) <> "google_code_verifier")
    by (intros sid; discriminate).
  exact (oauth_state_single_use demo_env demo_env later_env good_query demo_world _ "c0de"
           Hurl Hstate Hverifier Hqstate Hqcode Hcode Hname1 Hname2).
Defined.

(** On X14: the redirect of the dashboard request lands on a page the
    guard lets through. *)
Lemma middleware_no_redirect_loop_witness :
  middleware {| req_origin := "http://x.com"; req_pathname := "/signin";
                req_cookies := ∅ |} = next.
Proof.
  assert (Hredirect :
    middleware empty_session_request
    = redirect_to {| url_origin := "http://x.com"; url_pathname := "/signin";
                     searchParams := [("callbackUrl", "/dashboard")] |})
    by (vm_compute; reflexivity).
  destruct (middleware_no_redirect_loop empty_session_request _ Hredirect) as (Hnext & _).
  exact (Hnext "http://x.com" ∅).
Defined.

(** On X15: the cookie [session=7abc] makes Ann the current user. *)
Lemma getCurrentUser_lenient_cookie_witness :
  fst (getCurrentUser lenient_session_world) = Returned (Some ann).
Proof.
  assert (Hids : ids_int4 lenient_session_world) by (repeat constructor).
  assert (Hkey : List.find (fun u => usersTable.id u =? usersTable.id ann)
                   (users lenient_session_world) = Some ann) by (vm_compute; reflexivity).
  assert (Hsuffix : starts_with_digit "abc" = false) by (vm_compute; reflexivity).
  assert (Hcookie : cookieStore lenient_session_world !! "session"
                    = Some {| value := "7abc"; httpOnly := true; secure := false;
                              maxAge := None; expires := None; path := Some "/";
                              sameSite := None |}) by (vm_compute; reflexivity).
  assert (Hvalue : "7abc" = toString (usersTable.id ann) +:+ "abc")
    by (vm_compute; reflexivity).
  exact (getCurrentUser_lenient_cookie lenient_session_world ann "abc" _
           Hids Hkey Hsuffix Hcookie Hvalue).
Defined.

(** On X17: the password drawn with every fifth character. *)
Lemma generatePassword_shape_witness :
  String.length (generatePassword every_fifth) = 12%nat
  /\ min_length 8 (generatePassword every_fifth) = true.
Proof.
  assert (Hrnd : forall k, (k < 12)%nat ->
                           0 <= every_fifth k < Z.of_nat (String.length charset)).
  { intros k Hk. unfold every_fifth.
    change (Z.of_nat (String.length charset)) with 72. lia. }
  destruct (generatePassword_shape every_fifth Hrnd) as (Hlen & _ & Hrule).
  split; [exact Hlen | exact Hrule].
Defined.



(** On X21: Ann's signin opens the dashboard; her signout closes it. *)
Lemma signin_opens_signout_closes_witness :
  middleware (request_for "http://x.com" "/dashboard"
                (snd (signin demo_env ann_signin demo_world))) = next
  /\ middleware (request_for "http://x.com" "/dashboard"
                   (snd (signout (snd (signin demo_env ann_signin demo_world)))))
     = signin_redirect (request_for "http://x.com" "/dashboard"
                          (snd (signout (snd (signin demo_env ann_signin demo_world))))).
Proof.
  assert (Hparse : signinSchema ann_signin = ParseOk ("ann@x.com", "longenough1"))
    by (vm_compute; reflexivity).
  assert (Hfind : List.find (fun u => String.eqb (usersTable.email u) "ann@x.com")
                    (users demo_world) = Some ann) by (vm_compute; reflexivity).
  assert (Hhash : usersTable.hashed_password ann = Some "s1$longenough1") by reflexivity.
  assert (Hnonempty : "s1$longenough1" <> "") by discriminate.
  assert (Hcmp : bcrypt_compare "longenough1" "s1$longenough1" = true)
    by (vm_compute; reflexivity).
  assert (Hprotected : isProtectedRoute "/dashboard" = true) by (vm_compute; reflexivity).
  destruct (signin_opens_signout_closes demo_env ann_signin demo_world _ _ ann _
              Hparse Hfind Hhash Hnonempty Hcmp "http://x.com" "/dashboard")
    as (Hopen & Hclosed).
  split; [exact Hopen | exact (Hclosed Hprotected)].
Defined.

(** On X22: Cy signed up with a password; Google vouching for him does not
    sign him in. *)
Lemma google_signin_never_succeeds_witness :
  (exists msg, fst (handleGoogleOAuthCallback demo_env good_query cy_pending_world)
               = Returned (CallbackFailed msg))
  /\ sessions (snd (handleGoogleOAuthCallback demo_env good_query cy_pending_world)) = [].
Proof.
  assert (Hreach : reachable step initial_world cy_pending_world).
  { unfold cy_pending_world.
    eapply reach_step; [|apply step_client].
    eapply reach_step; [apply reach_here|].
    exact (step_serve initial_world demo_env (Signup cy_signup)). }
  destruct (google_signin_never_succeeds cy_pending_world Hreach) as ((_ & Hnone) & Hfails).
  destruct (Hfails demo_env good_query) as (Hfailed & _ & Hsessions).
  split; [exact Hfailed|]. rewrite Hsessions. exact Hnone.
Defined.
